(** * Request coordination layer of the CARA ComplianceBot backend

    A shallow embedding of [app/backend/main.py]: the request fingerprint,
    the semantic-cache lookup [check_existing_query], the submission handler
    [chat_with_bot], the polling handler [get_task_status] and the background
    worker [generate_ai_response_task], together with the two process-wide
    dictionaries [active_requests] and [background_task_results].

    Conventions.
    - A Python [str] is a [string]; [Optional[str]] is [option string].
    - A Python [dict] used as a keyed store is a [gmap string _].
    - [datetime.now()] is an integer count of microseconds (the resolution of
      [datetime]); [(a - b).total_seconds() > 300] is then
      [a - b > 300_000_000], the division by [10**6] being monotone and
      exact at the threshold.
    - ChromaDB distances are binary64 floats, as in Python.
    - Collaborators (the vector store, the generator, the clock, [hashlib.md5]
      and the builtin [hash]) are inputs of the functions that call them.
    - Console logging ([print]) is left out. *)

From Stdlib Require Import ZArith Ascii String List Lia.
From Corelib Require Import PrimFloat.
From stdpp Require Import gmap strings pretty.

Open Scope string_scope.
Open Scope Z_scope.

(** ** Python primitives *)

Module Py.

(** Truth value of an [Optional[str]]: [None] and [""] are falsy. *)
Definition truthy (o : option string) : bool :=
  match o with
  | Some s => negb (String.eqb s "")
  | None => false
  end.

(** [o or d] for an [Optional[str]] [o] and a string [d]. *)
Definition or_str (o : option string) (d : string) : string :=
  match o with
  | Some s => if String.eqb s "" then d else s
  | None => d
  end.

(** The line feed character, ["\n"]. *)
Definition LF : ascii := Ascii false true false true false false false false.

(** [s.split('\n', 1)]: one part when [s] has no line feed, otherwise the
    text before the first line feed and the text after it. *)
Fixpoint split_lf1 (s : string) : list string :=
  match s with
  | EmptyString => [EmptyString]
  | String c rest =>
      if Ascii.eqb c LF then [EmptyString; rest]
      else match split_lf1 rest with
           | hd :: tl => String c hd :: tl
           | [] => [String c EmptyString]
           end
  end.

(** [str(n)] for an [int]. *)
Definition str_int (n : Z) : string := pretty n.

(** [c in s] for a one-character [c]. *)
Fixpoint contains_char (c : ascii) (s : string) : bool :=
  match s with
  | EmptyString => false
  | String d rest => Ascii.eqb c d || contains_char c rest
  end.

End Py.

(** ** Data model *)

(** [class QueryRequest(BaseModel)] *)
Record QueryRequest := mkQueryRequest {
  query : string;
  module : option string
}.

(** [class QueryResponse(BaseModel)]; the dictionaries returned by the
    handlers are serialised through it, absent keys taking its defaults. *)
Record QueryResponse := mkQueryResponse {
  response : string;
  resp_module : option string;
  source : string;
  task_id : option string
}.

(** The authenticated user, of which the handlers read [username] only. *)
Record User := mkUser { username : string }.

(** A value of [active_requests]. *)
Record CacheEntry := mkCacheEntry {
  ce_response : QueryResponse;
  ce_completed : bool;
  ce_timestamp : Z
}.

(** A value of [background_task_results]. *)
Record TaskRecord := mkTaskRecord {
  tr_response : string;
  tr_module : option string;
  tr_source : string;
  tr_completed : bool;
  tr_timestamp : Z
}.

(** The two module-level dictionaries. *)
Record Store := mkStore {
  active_requests : gmap string CacheEntry;
  background_task_results : gmap string TaskRecord
}.

Definition empty_store : Store := mkStore ∅ ∅.

(** Five minutes, in microseconds. *)
Definition TTL : Z := 300 * 1000000.

(** [(now - ts).total_seconds() > 300] *)
Definition older_than_ttl (now ts : Z) : bool := Z.ltb TTL (now - ts).

(** ** Request fingerprint *)

Section Fingerprint.

(** [hashlib.md5(s.encode()).hexdigest()] *)
Variable md5_hexdigest : string -> string.

(** The string that is hashed: [f"{username}:{query}:{module or 'none'}"]. *)
Definition request_string (username query : string) (module : option string)
  : string :=
  username +:+ ":" +:+ query +:+ ":" +:+ Py.or_str module "none".

Definition _generate_request_hash (username query : string)
    (module : option string) : string :=
  md5_hexdigest (request_string username query module).

End Fingerprint.

(** ** The vector store (ChromaDB) as seen by the coordinator *)

(** A key of a result dictionary: missing, present with value [None], or
    present with a value. *)
Inductive Field (A : Type) : Type :=
| Absent
| PyNone
| Val (a : A).
Arguments Absent {A}.
Arguments PyNone {A}.
Arguments Val {A} a.

(** A metadata dictionary of a stored document. *)
Abbreviation Metadata := (gmap string string).

(** The dictionary returned by [collection.query]: one inner list per query
    text. A metadata entry is [None] for a document stored without one. *)
Record QueryResult := mkQueryResult {
  documents : Field (list (list string));
  distances : Field (list (list float));
  metadatas : Field (list (list (option Metadata)))
}.

(** [chroma_db.query_collection] returns a result or raises. *)
Inductive QueryOutcome : Type :=
| QueryRaised (msg : string)
| QueryReturned (r : QueryResult).

(** [chroma_db.add_documents] returns or raises. *)
Inductive PersistOutcome : Type :=
| PersistOk
| PersistRaised (msg : string).

(** The document [store_chat_history] writes for a pair:
    [query + "\n" + response]. *)
Definition stored_document (query response : string) : string :=
  query +:+ String Py.LF response.

(** The metadata [store_chat_history] writes, restricted to the key read
    back by [check_existing_query]. *)
Definition stored_metadata (module : option string) : Metadata :=
  match module with
  | Some m => {[ "module" := m ]}
  | None => ∅
  end.

(** Computations that may raise; the exception value is not inspected by
    the caller of [check_existing_query]. *)
Inductive Exc (A : Type) : Type :=
| Return (a : A)
| Raise.
Arguments Return {A} a.
Arguments Raise {A}.

Definition bind {A B : Type} (c : Exc A) (k : A -> Exc B) : Exc B :=
  match c with
  | Return a => k a
  | Raise => Raise
  end.

Notation "'let!' x ':=' c 'in' k" := (bind c (fun x => k))
  (at level 10, x name, c at level 200, k at level 200).

(** [l[0]], raising [IndexError] on the empty list. *)
Definition index0 {A : Type} (l : list A) : Exc A :=
  match l with
  | x :: _ => Return x
  | [] => Raise
  end.

(** The dictionary [check_existing_query] returns on a match. *)
Record ExistingQuery := mkExistingQuery {
  eq_response : string;
  eq_query : string
}.

(** [results.get('distances', [[0]])[0][0] if 'distances' in results else 1.0] *)
Definition similarity_score (results : QueryResult) : Exc float :=
  match distances results with
  | Absent => Return 1.0%float
  | PyNone => Raise
  | Val l => let! row := index0 l in index0 row
  end.

(** [results['metadatas'][0][0] if 'metadatas' in results and
    results['metadatas'][0] else {}], followed by [metadata.get('module')]. *)
Definition stored_module (results : QueryResult) : Exc (option string) :=
  match metadatas results with
  | Absent => Return None
  | PyNone => Raise
  | Val l =>
      let! row := index0 l in
      match row with
      | [] => Return None
      | Some md :: _ => Return (md !! "module")
      | None :: _ => Raise
      end
  end.

(** The body of the [try] block of [check_existing_query], given what
    [chroma_db.query_collection("user_queries", query, 1)] did. *)
Definition check_existing_query_try (outcome : QueryOutcome)
    (module : option string) : Exc (option ExistingQuery) :=
  match outcome with
  | QueryRaised _ => Raise
  | QueryReturned results =>
      match documents results with
      | Absent =>
          match distances results, metadatas results with
          | Absent, Absent => Return None      (* [not results] *)
          | _, _ => Raise                      (* [KeyError] *)
          end
      | PyNone => Return None
      | Val [] => Return None
      | Val ([] :: _) => Return None
      | Val ((document :: _) :: _) =>
          let! score := similarity_score results in
          if PrimFloat.ltb score 0.25%float then
            match Py.split_lf1 document with
            | part0 :: part1 :: _ =>
                if Py.truthy module then
                  let! stored := stored_module results in
                  if Py.truthy stored && negb (bool_decide (stored = module))
                  then Return None
                  else Return (Some (mkExistingQuery part1 part0))
                else Return (Some (mkExistingQuery part1 part0))
            | _ => Return None
            end
          else Return None
      end
  end.

(** [check_existing_query]: any exception is logged and turned into [None]. *)
Definition check_existing_query (outcome : QueryOutcome)
    (module : option string) : option ExistingQuery :=
  match check_existing_query_try outcome module with
  | Return r => r
  | Raise => None
  end.

(** ** The submission handler *)

(** The keyword arguments handed to [background_tasks.add_task]. *)
Record WorkerArgs := mkWorkerArgs {
  wa_task_id : string;
  wa_query : string;
  wa_context : list string;
  wa_module : option string;
  wa_username : string
}.

(** What a route handler hands back to the framework. *)
Inductive Reply : Type :=
| Ok (r : QueryResponse)
| HTTPException (status_code : Z) (detail : string).

(** The effects of a handler, in program order. *)
Inductive Event : Type :=
| EvFingerprint (request_hash : string)
| EvQuery (collection_name query_text : string) (n_results : nat)
| EvAddTask (args : WorkerArgs).

(** What a handler reads from its environment. *)
Record Env := mkEnv {
  query_collection : string -> string -> nat -> QueryOutcome;
  now_at_cache_check : Z;      (* [datetime.now()] at line 104 *)
  now_at_cache_store : Z;      (* [datetime.now()] at line 123 *)
  time_ms : Z                  (* [int(time.time() * 1000)] at line 130 *)
}.

(** The outcome of handling one request. *)
Record Handled := mkHandled {
  reply : Reply;
  store_after : Store;
  trace : list Event
}.

(** The tasks a handler scheduled. *)
Definition scheduled (tr : list Event) : list WorkerArgs :=
  flat_map (fun e => match e with EvAddTask a => [a] | _ => [] end) tr.

Definition get_collection_name_for_module (module : string) : string :=
  if String.eqb module "1" then "iso_bot"
  else if String.eqb module "2" then "risk_bot"
  else if String.eqb module "3" then "compliance_coach"
  else if String.eqb module "4" then "audit_buddy"
  else if String.eqb module "5" then "policy_navigator"
  else if String.eqb module "6" then "security_advisor"
  else "qa_pairs".

(** Lines 99-107: the look-up in [active_requests]. It yields the cached
    response to return, if any, and the dictionary it leaves behind. *)
Definition cache_check (now : Z) (request_hash : string)
    (ar : gmap string CacheEntry)
    : option QueryResponse * gmap string CacheEntry :=
  match ar !! request_hash with
  | Some cached_result =>
      if ce_completed cached_result then
        if older_than_ttl now (ce_timestamp cached_result)
        then (None, delete request_hash ar)
        else (Some (ce_response cached_result), ar)
      else (None, ar)
  | None => (None, ar)
  end.

(** Lines 138-139: the context taken from a module collection. *)
Definition context_of (results : QueryResult) : list string :=
  match documents results with
  | Val (first :: _) => first
  | _ => []
  end.

Section Coordinator.

(** [hashlib.md5(s.encode()).hexdigest()] *)
Variable md5_hexdigest : string -> string.

(** The builtin [hash] on strings, fixed for the life of the process. *)
Variable py_hash : string -> Z.

(** Line 130: [f"task_{int(time.time() * 1000)}_{hash(request_hash)}"] *)
Definition make_task_id (ms : Z) (request_hash : string) : string :=
  "task_" +:+ Py.str_int ms +:+ "_" +:+ Py.str_int (py_hash request_hash).

(** Lines 127-161, once no stored answer was accepted. *)
Definition start_background (env : Env) (query_request : QueryRequest)
    (current_user : User) (request_hash : string)
    : Reply * list Event :=
  let task_id := make_task_id (time_ms env) request_hash in
  let launch context :=
    (Ok (mkQueryResponse
           "I'm processing your question. Please wait a moment..."
           (module query_request) "processing" (Some task_id)),
     [EvAddTask (mkWorkerArgs task_id (query query_request) context
                   (module query_request) (username current_user))]) in
  match module query_request with
  | Some m =>
      if Py.truthy (Some m) then
        let collection_name := get_collection_name_for_module m in
        match query_collection env collection_name (query query_request) 3 with
        | QueryRaised msg =>
            (HTTPException 500 ("Error processing request: " +:+ msg),
             [EvQuery collection_name (query query_request) 3])
        | QueryReturned results =>
            let '(r, evs) := launch (context_of results) in
            (r, EvQuery collection_name (query query_request) 3 :: evs)
        end
      else launch []
  | None => launch []
  end.

(** [chat_with_bot], lines 89-161. *)
Definition chat_with_bot (env : Env) (query_request : QueryRequest)
    (current_user : User) (st : Store) : Handled :=
  let request_hash :=
    _generate_request_hash md5_hexdigest (username current_user)
      (query query_request) (module query_request) in
  let '(cached, ar) :=
    cache_check (now_at_cache_check env) request_hash (active_requests st) in
  match cached with
  | Some r =>
      mkHandled (Ok r) (mkStore ar (background_task_results st))
        [EvFingerprint request_hash]
  | None =>
      let existing_query :=
        check_existing_query
          (query_collection env "user_queries" (query query_request) 1)
          (module query_request) in
      let lookup := EvQuery "user_queries" (query query_request) 1 in
      match existing_query with
      | Some found =>
          let response_data :=
            mkQueryResponse (eq_response found) (module query_request)
              "database" None in
          mkHandled (Ok response_data)
            (mkStore
               (<[request_hash :=
                    mkCacheEntry response_data true (now_at_cache_store env)]>
                  ar)
               (background_task_results st))
            [EvFingerprint request_hash; lookup]
      | None =>
          let '(r, evs) :=
            start_background env query_request current_user request_hash in
          mkHandled r (mkStore ar (background_task_results st))
            (EvFingerprint request_hash :: lookup :: evs)
      end
  end.

End Coordinator.

(** ** The polling handler *)

(** [get_task_status], lines 164-192. *)
Definition get_task_status (now : Z) (task_id : string) (st : Store)
    : Reply * Store :=
  match background_task_results st !! task_id with
  | Some result =>
      if tr_completed result then
        let response :=
          mkQueryResponse (tr_response result) (tr_module result)
            (tr_source result) None in
        if older_than_ttl now (tr_timestamp result)
        then (Ok response,
              mkStore (active_requests st)
                (delete task_id (background_task_results st)))
        else (Ok response, st)
      else
        (Ok (mkQueryResponse "Still processing your request..." None
               "processing" (Some task_id)), st)
  | None => (HTTPException 404 "Task not found", st)
  end.

(** ** The background worker *)

(** The dictionary [ai_model.generate_response] returns. *)
Record GenResponse := mkGenResponse {
  success : bool;
  gen_response : string
}.

(** What [asyncio.wait_for(ai_model.generate_response(...), timeout=60.0)]
    does: it returns, raises [asyncio.TimeoutError], or raises something
    else. *)
Inductive GenOutcome : Type :=
| GenReturned (r : GenResponse)
| GenTimeout
| GenRaised (msg : string).

(** The arguments of a call of [store_chat_history]. *)
Record PersistCall := mkPersistCall {
  pc_user_id : string;
  pc_query : string;
  pc_response : string;
  pc_module : option string;
  pc_source : string
}.

(** Where the coroutine is suspended: in [asyncio.wait_for] (line 359), in
    [run_in_threadpool] around [store_chat_history] (line 377), or not at
    all once it has returned. Other coroutines, the polling handler among
    them, run while it is suspended. *)
Inductive WorkerState : Type :=
| AwaitingGenerator
| AwaitingPersist (call : PersistCall)
| Finished.

(** Lines 369-373: the response substituted for a generator that timed out. *)
Definition timeout_text (query : string) : string :=
  "I apologize for the delay in responding to your question about '"
  +:+ query +:+
  "'. Our AI service is experiencing high load at the moment. Please try again in a few moments, or consider rephrasing your question to be more specific.".

Definition timeout_response (query : string) : GenResponse :=
  mkGenResponse true (timeout_text query).

(** [background_task_results[task_id] = {...}] *)
Definition write_result (task_id : string) (r : TaskRecord) (st : Store)
    : Store :=
  mkStore (active_requests st) (<[task_id := r]> (background_task_results st)).

(** Lines 386-392, 395-401 and 404-410: the three records. *)
Definition success_record (args : WorkerArgs) (text : string) (now : Z)
    : TaskRecord :=
  mkTaskRecord text (wa_module args) "deepseek" true now.

Definition failure_record (args : WorkerArgs) (now : Z) : TaskRecord :=
  mkTaskRecord "Failed to generate response" (wa_module args) "error" true now.

Definition exception_record (args : WorkerArgs) (msg : string) (now : Z)
    : TaskRecord :=
  mkTaskRecord ("Error processing request: " +:+ msg) (wa_module args)
    "error" true now.

(** From the resumption after [asyncio.wait_for] to the next suspension or
    to the end (lines 359-376 and 393-410). *)
Definition resume_after_generator (args : WorkerArgs) (gen : GenOutcome)
    (now : Z) (st : Store) : WorkerState * Store :=
  let after (response : GenResponse) :=
    if success response then
      (AwaitingPersist
         (mkPersistCall (wa_username args) (wa_query args)
            (gen_response response) (wa_module args) "deepseek"),
       st)
    else (Finished, write_result (wa_task_id args) (failure_record args now) st)
  in
  match gen with
  | GenReturned response => after response
  | GenTimeout => after (timeout_response (wa_query args))
  | GenRaised msg =>
      (Finished,
       write_result (wa_task_id args) (exception_record args msg now) st)
  end.

(** From the resumption after [run_in_threadpool] to the end (lines 377-392
    and 402-410). *)
Definition resume_after_persist (args : WorkerArgs) (call : PersistCall)
    (persisted : PersistOutcome) (now : Z) (st : Store) : Store :=
  match persisted with
  | PersistOk =>
      write_result (wa_task_id args)
        (success_record args (pc_response call) now) st
  | PersistRaised msg =>
      write_result (wa_task_id args) (exception_record args msg now) st
  end.

(** [generate_ai_response_task] run to its end, given what the generator
    and the vector store did; [now] is [datetime.now()] at the one write. *)
Definition generate_ai_response_task (args : WorkerArgs) (gen : GenOutcome)
    (persisted : PersistOutcome) (now : Z) (st : Store) : Store :=
  match resume_after_generator args gen now st with
  | (AwaitingPersist call, st') =>
      resume_after_persist args call persisted now st'
  | (_, st') => st'
  end.

(** ** The route [/chat] as the framework serves it *)

(** The JSON body of a request, a missing key being [None]. *)
Record RawBody := mkRawBody {
  body_query : option string;
  body_module : option string
}.

(** Validation against [QueryRequest]: [query: str] is required,
    [module: Optional[str] = None] is not; a [str] may be empty. *)
Definition parse_QueryRequest (body : RawBody) : option QueryRequest :=
  match body_query body with
  | Some q => Some (mkQueryRequest q (body_module body))
  | None => None
  end.

(** What [Depends(get_current_active_user)] produced: the user, or the HTTP
    error it raised (the dependency lives in [app.auth.auth]). *)
Inductive DependencyOutcome : Type :=
| DependencyRaised (status_code : Z) (detail : string)
| CurrentUser (u : User).

Section Route.

Variable md5_hexdigest : string -> string.
Variable py_hash : string -> Z.

(** [@app.post("/chat")]: the dependency [get_current_active_user] and the
    body validation run first; the handler runs only when both succeed. *)
Definition post_chat (env : Env) (auth : DependencyOutcome) (body : RawBody)
    (st : Store) : Handled :=
  match auth with
  | DependencyRaised status_code detail =>
      mkHandled (HTTPException status_code detail) st []
  | CurrentUser current_user =>
      match parse_QueryRequest body with
      | None => mkHandled (HTTPException 422 "Unprocessable Entity") st []
      | Some query_request =>
          chat_with_bot md5_hexdigest py_hash env query_request current_user st
      end
  end.

(** ** The system: every way the two dictionaries change *)

Inductive step : Store -> Store -> Prop :=
| step_chat env auth body st :
    step st (store_after (post_chat env auth body st))
| step_poll now task_id st :
    step st (snd (get_task_status now task_id st))
| step_generator args gen now st :
    step st (snd (resume_after_generator args gen now st))
| step_persist args call persisted now st :
    step st (resume_after_persist args call persisted now st).

(** The states the process can be in, from start-up on. *)
Definition reachable (st : Store) : Prop := rtc step empty_store st.

End Route.

(** ** Concrete inputs used by the examples below *)

Module Sample.

(** Stand-ins for the two library hashes, for evaluation only. *)
Definition md5 (s : string) : string := s.
Definition hash (s : string) : Z := Z.of_nat (String.length s).

Definition alice : User := mkUser "alice".

(** A vector store that holds no document. *)
Definition no_candidates : QueryResult :=
  mkQueryResult (Val [[]]) (Val [[]]) (Val [[]]).

Definition empty_db : string -> string -> nat -> QueryOutcome :=
  fun _ _ _ => QueryReturned no_candidates.

(** A vector store whose nearest stored pair, tagged with module ["1"], is
    at distance [d] of every query. *)
Definition one_pair_db (d : float) : string -> string -> nat -> QueryOutcome :=
  fun _ _ _ =>
    QueryReturned
      (mkQueryResult
         (Val [[stored_document "What is ISO 27001?" "A standard."]])
         (Val [[d]]) (Val [[Some (stored_metadata (Some "1"))]])).

Definition env_near : Env := mkEnv (one_pair_db 0.125%float) 1000 1000 1700000000000.
Definition env_far : Env := mkEnv (one_pair_db 0.5%float) 1000 1000 1700000000000.

Definition ask_module_1 : QueryRequest :=
  mkQueryRequest "What is ISO 27001?" (Some "1").

Definition env_empty : Env := mkEnv empty_db 1000 1000 1700000000000.

Definition ask : QueryRequest := mkQueryRequest "What is ISO 27001?" None.

Definition args : WorkerArgs :=
  mkWorkerArgs "task_1700000000000_29" "What is ISO 27001?" [] None "alice".

Definition answered : GenOutcome :=
  GenReturned (mkGenResponse true "It is a standard.").

(** A registry holding one record written at time [0]. *)
Definition finished_at_0 : Store :=
  generate_ai_response_task args answered PersistOk 0 empty_store.

Definition finished_record : TaskRecord :=
  mkTaskRecord "It is a standard." None "deepseek" true 0.

(** One microsecond more than five minutes after time [0]. *)
Definition late : Z := 300000001.

(** The call of [store_chat_history] the worker makes for [answered]. *)
Definition persist_call : PersistCall :=
  mkPersistCall "alice" "What is ISO 27001?" "It is a standard." None
    "deepseek".

(** The same store and clock as [env_empty], two microseconds later on the
    handler's clock and within the same millisecond of [time.time()]. *)
Definition env_empty_again : Env := mkEnv empty_db 1002 1002 1700000000000.

(** A cache holding, under alice's fingerprint for [ask], an entry stored
    at time [0]. *)
Definition cached_at_0 : Store :=
  mkStore
    {[ "alice:What is ISO 27001?:none" :=
         mkCacheEntry (mkQueryResponse "A standard." None "database" None)
           true 0 ]}
    ∅.

Definition env_empty_late : Env := mkEnv empty_db late late 1700000300000.

(** A body whose query is present and empty. *)
Definition empty_query_body : RawBody := mkRawBody (Some "") None.

(** A body without a query. *)
Definition no_query_body : RawBody := mkRawBody None (Some "1").

End Sample.

(** ** Predicates used in the statements *)

(** Every record of a registry is marked completed. *)
Definition all_completed (m : gmap string TaskRecord) : Prop :=
  map_Forall (fun _ r => tr_completed r = true) m.

(** What the vector store returns for its nearest stored pair: the document
    and metadata written by [store_chat_history], and the distance. *)
Definition candidate (original_query answer : string) (distance : float)
    (metadata : Metadata) : QueryResult :=
  mkQueryResult (Val [[stored_document original_query answer]])
    (Val [[distance]]) (Val [[Some metadata]]).

(** The request's module is unset, or the stored one is, or they agree;
    unset is Python's falsy: [None] or the empty string. *)
Definition module_compatible (module stored : option string) : Prop :=
  Py.truthy module = false \/ Py.truthy stored = false \/ stored = module.

(** The request was answered at once from the stored answers: the reply
    carries [source = "database"] and no background task was scheduled. *)
Definition answered_from_database (h : Handled) : Prop :=
  exists r, reply h = Ok r /\ source r = "database" /\ scheduled (trace h) = [].

(** * Further code of the repository *)

(** ** [app/database/chroma_db.py] *)

(** The collections [_setup_collections] makes sure exist, with their
    descriptions, in the order of the dictionary. *)
Definition default_collections : list (string * string) :=
  [("qa_pairs", "Store Q&A pairs for compliance bot");
   ("user_queries", "Store user queries and responses");
   ("iso_bot", "Collection for ISO 27001 related content");
   ("risk_bot", "Collection for risk assessment related content");
   ("compliance_coach", "Collection for compliance training content");
   ("audit_buddy", "Collection for audit preparation content");
   ("policy_navigator", "Collection for policy navigation content");
   ("security_advisor", "Collection for security advice content")].

(** [_setup_collections]: given the names of the collections the client
    already has, the collections it creates, in order. *)
Definition _setup_collections (existing_collections : list string)
    : list (string * string) :=
  filter (fun c => fst c ∉ existing_collections) default_collections.

(** The names of the client's collections once [_setup_collections] ran. *)
Definition collections_after_setup (existing_collections : list string)
    : list string :=
  existing_collections ++ (_setup_collections existing_collections).*1.

(** The arguments of a call of [collection.add]. *)
Record CollectionAdd := mkCollectionAdd {
  ca_collection : string;
  ca_documents : list string;
  ca_metadatas : list Metadata;
  ca_ids : list string
}.

(** [get_collection]: raises when the client has no such collection. *)
Definition get_collection (collections : list string) (collection_name : string)
    : Exc string :=
  if bool_decide (collection_name ∈ collections) then Return collection_name
  else Raise.

(** [add_documents]: a missing or empty [metadatas] becomes one empty
    dictionary per document, a missing or empty [ids] becomes
    [id_0], [id_1], ... *)
Definition add_documents (collections : list string) (collection_name : string)
    (documents : list string) (metadatas : option (list Metadata))
    (ids : option (list string)) : Exc CollectionAdd :=
  let! collection := get_collection collections collection_name in
  Return
    (mkCollectionAdd collection documents
       (match metadatas with
        | Some (m :: ms) => m :: ms
        | _ => replicate (length documents) ∅
        end)
       (match ids with
        | Some (i :: rest) => i :: rest
        | _ => (fun i : nat => "id_" +:+ pretty i) <$> seq 0 (length documents)
        end)).

(** ** [app/backend/main.py]: writes to the vector store *)

(** [store_chat_history], lines 259-282. [now_iso] is
    [datetime.now().isoformat()] and [now_stamp] the text of
    [datetime.now().timestamp()]; a metadata value [None] is a missing key,
    which [metadata.get] does not tell apart. *)
Definition store_chat_history (collections : list string) (call : PersistCall)
    (now_iso now_stamp : string) : Exc CollectionAdd :=
  let metadata : Metadata :=
    <["user_id" := pc_user_id call]>
      (<["timestamp" := now_iso]>
         (<["source" := pc_source call]> (stored_metadata (pc_module call))))
  in
  add_documents collections "user_queries"
    [stored_document (pc_query call) (pc_response call)]
    (Some [metadata]) (Some ["chat_" +:+ now_stamp]).

(** [class AdminQAPair(BaseModel)] *)
Record AdminQAPair := mkAdminQAPair {
  qa_question : string;
  qa_answer : string;
  qa_module : string;
  qa_metadata : Metadata
}.

(** [add_qa_pair], lines 199-212, once the admin dependency has passed:
    the call it makes, or the exception of a missing collection. *)
Definition add_qa_pair (collections : list string) (qa_pair : AdminQAPair)
    (now_stamp : string) : Exc CollectionAdd :=
  let collection_name := get_collection_name_for_module (qa_module qa_pair) in
  let document := qa_question qa_pair +:+ String Py.LF (qa_answer qa_pair) in
  add_documents collections collection_name [document]
    (Some [qa_metadata qa_pair]) (Some ["qa_" +:+ now_stamp]).

(** The keys of [BOT_MODULES] in [app/config/settings.py]. *)
Definition BOT_MODULES_keys : list string := ["1"; "2"; "3"; "4"; "5"; "6"].

(** What a query of a collection returns when its nearest document is the
    one a [collection.add] call wrote, at the given distance. *)
Definition nearest_of (added : CollectionAdd) (distance : float)
    : QueryResult :=
  mkQueryResult (Val [ca_documents added]) (Val [[distance]])
    (Val [Some <$> ca_metadatas added]).

(** ** [app/models/ai_model.py] *)

(** JSON values as [response.json()] returns them; the fields of an object
    are the items of the dictionary, one per key. *)
#[local] Unset Elimination Schemes.
Inductive Json : Type :=
| JNull
| JBool (b : bool)
| JNumber (literal : string)
| JString (s : string)
| JArray (items : list Json)
| JObject (fields : list (string * Json)).
#[local] Set Elimination Schemes.

(** The value bound to a key of a parsed object. *)
Fixpoint assoc (key : string) (fields : list (string * Json)) : option Json :=
  match fields with
  | [] => None
  | (k, v) :: rest => if String.eqb k key then Some v else assoc key rest
  end.

(** [j.get(key, default)]: only a dictionary has [get]. *)
Definition json_get (j : Json) (key : string) (default : Json) : Exc Json :=
  match j with
  | JObject fields =>
      match assoc key fields with
      | Some v => Return v
      | None => Return default
      end
  | _ => Raise
  end.

(** [j[0]]: the first item of a list, the first character of a string,
    an exception otherwise. *)
Definition json_index0 (j : Json) : Exc Json :=
  match j with
  | JArray (x :: _) => Return x
  | JString (String c _) => Return (JString (String c EmptyString))
  | _ => Raise
  end.

(** What [client.post] does: a response with its status and its body
    ([None] when [response.json()] raises), a timeout, or another
    exception. *)
Inductive PostOutcome : Type :=
| PostResponded (status_code : Z) (body : option Json)
| PostTimeout
| PostRaised (msg : string).

(** The dictionary [generate_response] returns. *)
Record ModelReply := mkModelReply {
  mr_success : bool;
  mr_response : Json;
  mr_usage : Json
}.

(** [_generate_mock_response], lines 125-165. *)
Definition _generate_mock_response (query : string)
    (context : option (list string)) (module : option string) : string :=
  match context with
  | Some (context_text :: _) =>
      let answer_text :=
        if Py.contains_char Py.LF context_text then
          match Py.split_lf1 context_text with
          | _ :: part1 :: _ => part1
          | _ => context_text
          end
        else context_text in
      "Based on our compliance database, here's the answer to your question about '"
      +:+ query +:+ "':" +:+ String Py.LF (String Py.LF answer_text)
  | _ =>
      let generic :=
        "Thank you for your question about '" +:+ query +:+
        "'. In compliance and governance contexts, it's important to refer to your organization's specific policies and applicable regulations. Would you like me to provide general guidance on this topic, or could you provide more specific details about your compliance framework?" in
      match module with
      | Some m =>
          if String.eqb m "1" then
            "As the ISO Bot, I can tell you that regarding '" +:+ query +:+
            "', ISO 27001 typically requires organizations to implement controls that address this risk through a systematic approach. Consider reviewing controls in Annex A that relate to your specific concern."
          else if String.eqb m "2" then
            "As RiskBot, I recommend conducting a thorough risk assessment for '"
            +:+ query +:+
            "'. Start by identifying assets, threats, and vulnerabilities, then evaluate likelihood and impact to determine appropriate controls."
          else if String.eqb m "3" then
            "Compliance Coach here! When dealing with '" +:+ query +:+
            "', remember to document your actions and maintain evidence of compliance. Training your team on this specific requirement is essential for organizational compliance."
          else if String.eqb m "4" then
            "AuditBuddy advice: For your question about '" +:+ query +:+
            "', prepare by gathering documentation that demonstrates compliance. Auditors will look for evidence of implementation, not just policy statements."
          else if String.eqb m "5" then
            "Policy Navigator: According to most organizational policies, '"
            +:+ query +:+
            "' should be handled according to your data classification standards. Refer to your organization's specific policy documents for detailed guidance."
          else if String.eqb m "6" then
            "Security Advisor: To address '" +:+ query +:+
            "' securely, implement defense-in-depth measures including technical controls, administrative safeguards, and regular monitoring. Don't forget to test your security controls periodically."
          else generic
      | None => generic
      end
  end.

(** [_get_fallback_response], lines 106-123. *)
Definition _get_fallback_response (query : string)
    (context : option (list string)) (module : option string) : ModelReply :=
  mkModelReply true (JString (_generate_mock_response query context module))
    (JObject [("total_tokens", JNumber "250")]).

(** Lines 72-82: the reply built from the body of a 200 response. *)
Definition reply_of_body (response_data : Json) : Exc ModelReply :=
  let! choices := json_get response_data "choices" (JArray [JObject []]) in
  let! first := json_index0 choices in
  let! message := json_get first "message" (JObject []) in
  let! assistant_response := json_get message "content" (JString "") in
  let! usage := json_get response_data "usage" (JObject []) in
  Return (mkModelReply true assistant_response usage).

(** [generate_response], lines 16-104, given what the HTTP call did. *)
Definition generate_response (posted : PostOutcome) (query : string)
    (context : option (list string)) (module : option string) : ModelReply :=
  match posted with
  | PostResponded status_code body =>
      if Z.eqb status_code 200 then
        match body with
        | Some response_data =>
            match reply_of_body response_data with
            | Return r => r
            | Raise => _get_fallback_response query context module
            end
        | None => _get_fallback_response query context module
        end
      else _get_fallback_response query context module
  | PostTimeout => _get_fallback_response query context module
  | PostRaised _ => _get_fallback_response query context module
  end.

(** [create_user], lines 214-235, once the admin dependency has passed. *)

(** A value of [fake_users_db]. *)
Record UserRecord := mkUserRecord {
  ur_username : string;
  ur_email : option string;
  ur_full_name : option string;
  ur_hashed_password : string;
  ur_disabled : bool;
  ur_is_admin : bool
}.

(** [class UserCreate(BaseModel)] *)
Record UserCreate := mkUserCreate {
  uc_username : string;
  uc_password : string;
  uc_email : option string;
  uc_full_name : option string;
  uc_is_admin : bool
}.

Inductive CreateResult : Type :=
| Created (username : string)
| CreateRejected (status_code : Z) (detail : string).

Section Users.

(** [get_password_hash] of [app.auth.auth]. *)
Variable get_password_hash : string -> string.

Definition create_user (user : UserCreate)
    (fake_users_db : gmap string UserRecord)
    : CreateResult * gmap string UserRecord :=
  match fake_users_db !! uc_username user with
  | Some _ => (CreateRejected 400 "Username already exists", fake_users_db)
  | None =>
      let hashed_password := get_password_hash (uc_password user) in
      (Created (uc_username user),
       <[uc_username user :=
           mkUserRecord (uc_username user) (uc_email user) (uc_full_name user)
             hashed_password false (uc_is_admin user)]> fake_users_db)
  end.

End Users.

(** ** [app/utils/retry.py] and [run.py] *)
















(** ** Further concrete inputs *)

Module Demo.





(** An environment one second of [time.time()] after [Sample.env_empty]. *)
Definition env_empty_next_second : Env :=
  mkEnv Sample.empty_db 1000000 1000000 1700000001000.






Definition carol : UserCreate :=
  mkUserCreate "carol" "s3cret" (Some "carol@example.org") None false.

Definition carol_again : UserCreate :=
  mkUserCreate "carol" "other" None None true.

End Demo.

(** ** Invariants of the two dictionaries *)

(** An entry of [active_requests] as the database-hit path writes it. *)
Definition cache_entry_ok (e : CacheEntry) : Prop :=
  ce_completed e = true /\
  source (ce_response e) = "database" /\
  task_id (ce_response e) = None.

(** A record of [background_task_results] as the worker writes it. *)
Definition task_record_ok (r : TaskRecord) : Prop :=
  tr_completed r = true /\
  (tr_source r = "deepseek" \/ tr_source r = "error").

Definition store_ok (st : Store) : Prop :=
  map_Forall (fun _ e => cache_entry_ok e) (active_requests st) /\
  map_Forall (fun _ r => task_record_ok r) (background_task_results st).

(** ** The task registry *)

(** The three outcomes of the look-up in [active_requests]. *)
Lemma cache_check_cases now h (ar : gmap string CacheEntry) :
  (exists e, ar !! h = Some e /\ ce_completed e = true /\
     older_than_ttl now (ce_timestamp e) = false /\
     cache_check now h ar = (Some (ce_response e), ar)) \/
  (exists e, ar !! h = Some e /\ ce_completed e = true /\
     older_than_ttl now (ce_timestamp e) = true /\
     cache_check now h ar = (None, delete h ar)) \/
  ((forall e, ar !! h = Some e -> ce_completed e = false) /\
     cache_check now h ar = (None, ar)).
Proof.
  unfold cache_check.
  destruct (ar !! h) as [e|] eqn:Hl.
  - destruct (ce_completed e) eqn:Hc.
    + destruct (older_than_ttl now (ce_timestamp e)) eqn:Ho.
      * right; left. exists e. auto.
      * left. exists e. auto.
    + right; right. split; [|reflexivity]. intros e' [= <-]. exact Hc.
  - right; right. split; [|reflexivity]. intros e' [=].
Qed.

Section RegistryFacts.

Variable md5_hexdigest : string -> string.
Variable py_hash : string -> Z.

(** The submission handler never touches [background_task_results]. *)
Lemma chat_with_bot_registry env query_request current_user st :
  background_task_results
    (store_after
       (chat_with_bot md5_hexdigest py_hash env query_request current_user st))
  = background_task_results st.
Proof.
  unfold chat_with_bot.
  destruct (cache_check _ _ _) as [[r|] ar]; [reflexivity|].
  destruct (check_existing_query _ _); [reflexivity|].
  destruct (start_background _ _ _ _ _) as [r evs]. reflexivity.
Qed.

Lemma post_chat_registry env auth body st :
  background_task_results
    (store_after (post_chat md5_hexdigest py_hash env auth body st))
  = background_task_results st.
Proof.
  unfold post_chat. destruct auth; [reflexivity|].
  destruct (parse_QueryRequest body); [|reflexivity].
  apply chat_with_bot_registry.
Qed.

(** Polling only ever removes the polled record. *)
Lemma get_task_status_registry now task_id st :
  background_task_results (snd (get_task_status now task_id st))
    = background_task_results st \/
  background_task_results (snd (get_task_status now task_id st))
    = delete task_id (background_task_results st).
Proof.
  unfold get_task_status.
  destruct (background_task_results st !! task_id) as [r|]; [|by left].
  destruct (tr_completed r); [|by left].
  destruct (older_than_ttl now (tr_timestamp r)); [by right|by left].
Qed.

Lemma write_result_completed task_id r st :
  tr_completed r = true ->
  all_completed (background_task_results st) ->
  all_completed (background_task_results (write_result task_id r st)).
Proof.
  intros Hr Hall. unfold write_result, all_completed; simpl.
  by apply map_Forall_insert_2.
Qed.

Lemma resume_after_generator_completed args gen now st :
  all_completed (background_task_results st) ->
  all_completed
    (background_task_results (snd (resume_after_generator args gen now st))).
Proof.
  intros Hall. unfold resume_after_generator.
  destruct gen as [r| |msg]; simpl.
  - destruct (success r); simpl; [assumption|].
    by apply write_result_completed.
  - assumption.
  - by apply write_result_completed.
Qed.

Lemma resume_after_persist_completed args call persisted now st :
  all_completed (background_task_results st) ->
  all_completed
    (background_task_results (resume_after_persist args call persisted now st)).
Proof.
  intros Hall. destruct persisted; simpl; by apply write_result_completed.
Qed.

Lemma step_completed st st' :
  step md5_hexdigest py_hash st st' ->
  all_completed (background_task_results st) ->
  all_completed (background_task_results st').
Proof.
  intros Hstep Hall.
  destruct Hstep as [env auth body st|now tid st|args gen now st
                    |args call persisted now st].
  - by rewrite post_chat_registry.
  - destruct (get_task_status_registry now tid st) as [-> | ->];
      [assumption|]. by apply map_Forall_delete.
  - by apply resume_after_generator_completed.
  - by apply resume_after_persist_completed.
Qed.

Lemma reachable_completed st :
  reachable md5_hexdigest py_hash st ->
  all_completed (background_task_results st).
Proof.
  unfold reachable. intros Hr.
  assert (Hgen : forall s s', rtc (step md5_hexdigest py_hash) s s' ->
            all_completed (background_task_results s) ->
            all_completed (background_task_results s')).
  { clear. intros s s' H. induction H as [|s1 s2 s3 H12 _ IH]; [auto|].
    intros H1. apply IH. by eapply step_completed. }
  apply (Hgen _ _ Hr). apply map_Forall_empty.
Qed.

(** The worker, run to its end, has written a record for its task. *)
Lemma worker_writes_record args gen persisted now st :
  exists r,
    background_task_results
      (generate_ai_response_task args gen persisted now st) !! wa_task_id args
    = Some r /\ tr_completed r = true.
Proof.
  unfold generate_ai_response_task, resume_after_generator.
  destruct gen as [g| |msg]; simpl.
  - destruct (success g); simpl.
    + destruct persisted; simpl; eexists; (split; [apply lookup_insert_eq|done]).
    + eexists; (split; [apply lookup_insert_eq|done]).
  - destruct persisted; simpl; eexists; (split; [apply lookup_insert_eq|done]).
  - eexists; (split; [apply lookup_insert_eq|done]).
Qed.

End RegistryFacts.

(** What the polling handler answers on a record that is not completed,
    and when it answers 404. *)
Lemma get_task_status_pending now tid st r :
  background_task_results st !! tid = Some r ->
  tr_completed r = false ->
  get_task_status now tid st
  = (Ok (mkQueryResponse "Still processing your request..." None "processing"
           (Some tid)), st).
Proof.
  intros Hlookup Hpending. unfold get_task_status.
  rewrite Hlookup, Hpending. reflexivity.
Qed.

Lemma get_task_status_not_found_iff now tid st :
  fst (get_task_status now tid st) = HTTPException 404 "Task not found"
  <-> background_task_results st !! tid = None.
Proof.
  unfold get_task_status.
  destruct (background_task_results st !! tid) as [r|]; [|tauto].
  destruct (tr_completed r); [destruct (older_than_ttl _ _)|]; simpl;
    split; discriminate.
Qed.

Lemma sample_finished_reachable :
  reachable Sample.md5 Sample.hash Sample.finished_at_0.
Proof.
  unfold reachable.
  eapply rtc_l;
    [apply (step_generator _ _ Sample.args Sample.answered 0 empty_store)|].
  eapply rtc_l; [|apply rtc_refl].
  apply (step_persist _ _ Sample.args Sample.persist_call PersistOk 0).
Qed.

(** C9. Every record ever stored in [background_task_results] has its
    completion flag set: whatever the generator and the vector store do, the
    worker ends by writing a record with [completed = True] for its task, and
    in every state the process can reach, every record of the registry is
    completed, so the registry never holds a pending record. *)
Theorem registry_never_pending
    (md5_hexdigest : string -> string) (py_hash : string -> Z) :
  (forall args gen persisted now st, exists r,
      background_task_results
        (generate_ai_response_task args gen persisted now st)
        !! wa_task_id args = Some r
      /\ tr_completed r = true) /\
  (forall st task_id r,
      reachable md5_hexdigest py_hash st ->
      background_task_results st !! task_id = Some r ->
      tr_completed r = true).
Proof.
  split.
  - intros. apply worker_writes_record.
  - intros st tid r Hreach Hlookup.
    exact (reachable_completed _ _ st Hreach tid r Hlookup).
Qed.

Lemma registry_never_pending_witness :
  reachable Sample.md5 Sample.hash Sample.finished_at_0 /\
  background_task_results Sample.finished_at_0 !! wa_task_id Sample.args
    = Some Sample.finished_record /\
  tr_completed Sample.finished_record = true.
Proof.
  split; [exact sample_finished_reachable|].
  split; [reflexivity|].
  apply (proj2 (registry_never_pending Sample.md5 Sample.hash)
           Sample.finished_at_0 (wa_task_id Sample.args)
           Sample.finished_record sample_finished_reachable).
  reflexivity.
Defined.

(** C1, as the code behaves. A submission that launches background
    generation leaves the registry as it was: when the task id it returns
    was not in the registry before, a poll of that id issued before the
    worker has written its record is answered 404 "Task not found", not
    "Still processing your request...". *)
Theorem poll_before_completion_not_found
    (md5_hexdigest : string -> string) (py_hash : string -> Z)
    (env : Env) (query_request : QueryRequest) (current_user : User)
    (st : Store) (r : QueryResponse) (tid : string) (now : Z) :
  let handled :=
    chat_with_bot md5_hexdigest py_hash env query_request current_user st in
  reply handled = Ok r ->
  source r = "processing" ->
  task_id r = Some tid ->
  background_task_results st !! tid = None ->
  get_task_status now tid (store_after handled)
    = (HTTPException 404 "Task not found", store_after handled).
Proof.
  intros handled _ _ _ Hfresh.
  unfold get_task_status. subst handled.
  rewrite chat_with_bot_registry, Hfresh. reflexivity.
Qed.

Lemma poll_before_completion_not_found_witness :
  let handled :=
    chat_with_bot Sample.md5 Sample.hash Sample.env_empty Sample.ask
      Sample.alice empty_store in
  reply handled
    = Ok (mkQueryResponse
            "I'm processing your question. Please wait a moment..." None
            "processing" (Some "task_1700000000000_29")) /\
  scheduled (trace handled) = [Sample.args] /\
  get_task_status 2000 "task_1700000000000_29" (store_after handled)
    = (HTTPException 404 "Task not found", store_after handled).
Proof.
  split; [reflexivity|]. split; [reflexivity|].
  apply (poll_before_completion_not_found Sample.md5 Sample.hash
           Sample.env_empty Sample.ask Sample.alice empty_store
           (mkQueryResponse
              "I'm processing your question. Please wait a moment..." None
              "processing" (Some "task_1700000000000_29"))
           "task_1700000000000_29" 2000); reflexivity.
Defined.

(** C2, as stated, fails: a record written at time [0] and polled more than
    300 seconds later is older than the limit, yet the poll is answered
    with the record's payload and not with 404. *)
Lemma expired_record_is_returned :
  background_task_results Sample.finished_at_0 !! wa_task_id Sample.args
    = Some Sample.finished_record /\
  older_than_ttl Sample.late (tr_timestamp Sample.finished_record) = true /\
  fst (get_task_status Sample.late (wa_task_id Sample.args)
         Sample.finished_at_0)
    = Ok (mkQueryResponse "It is a standard." None "deepseek" None) /\
  fst (get_task_status Sample.late (wa_task_id Sample.args)
         Sample.finished_at_0)
    <> HTTPException 404 "Task not found".
Proof.
  split; [reflexivity|]. split; [reflexivity|]. split; [reflexivity|].
  discriminate.
Qed.

(** C2, amended. For every task id whose record is older than 300 seconds
    since its stored timestamp, [get_task_status] answers with the record's
    payload one last time and evicts the record; every later poll of that
    id, as long as the worker does not write it again, is answered 404. *)
Theorem expired_record_returned_once_then_evicted
    (md5_hexdigest : string -> string) (py_hash : string -> Z)
    (st : Store) (tid : string) (r : TaskRecord) (now : Z) :
  reachable md5_hexdigest py_hash st ->
  background_task_results st !! tid = Some r ->
  older_than_ttl now (tr_timestamp r) = true ->
  get_task_status now tid st
    = (Ok (mkQueryResponse (tr_response r) (tr_module r) (tr_source r) None),
       mkStore (active_requests st) (delete tid (background_task_results st)))
  /\
  forall later,
    fst (get_task_status later tid (snd (get_task_status now tid st)))
      = HTTPException 404 "Task not found".
Proof.
  intros Hreach Hlookup Hold.
  pose proof (reachable_completed _ _ st Hreach tid r Hlookup) as Hdone.
  simpl in Hdone.
  assert (Hget : get_task_status now tid st
    = (Ok (mkQueryResponse (tr_response r) (tr_module r) (tr_source r) None),
       mkStore (active_requests st) (delete tid (background_task_results st)))).
  { unfold get_task_status. rewrite Hlookup, Hdone, Hold. reflexivity. }
  split; [exact Hget|].
  intros later. rewrite Hget. unfold get_task_status; simpl.
  rewrite lookup_delete_eq. reflexivity.
Qed.

Lemma expired_record_returned_once_then_evicted_witness :
  reachable Sample.md5 Sample.hash Sample.finished_at_0 /\
  older_than_ttl Sample.late (tr_timestamp Sample.finished_record) = true /\
  get_task_status Sample.late (wa_task_id Sample.args) Sample.finished_at_0
    = (Ok (mkQueryResponse "It is a standard." None "deepseek" None),
       empty_store) /\
  fst (get_task_status (Sample.late + 1) (wa_task_id Sample.args) empty_store)
    = HTTPException 404 "Task not found".
Proof.
  split; [exact sample_finished_reachable|]. split; [reflexivity|].
  pose proof (expired_record_returned_once_then_evicted Sample.md5 Sample.hash
                Sample.finished_at_0 (wa_task_id Sample.args)
                Sample.finished_record Sample.late
                sample_finished_reachable eq_refl eq_refl) as [Hget Hlater].
  split; [exact Hget|]. reflexivity.
Defined.

(** ** The semantic cache: acceptance of a stored answer *)

(** A stored document always splits in two at its first line feed. *)
Lemma split_lf1_stored_document q a :
  exists part0 part1, Py.split_lf1 (stored_document q a) = [part0; part1].
Proof.
  unfold stored_document. induction q as [|c q IH]; simpl.
  - exists EmptyString, a. reflexivity.
  - destruct (Ascii.eqb c Py.LF).
    + eexists _, _. reflexivity.
    + destruct IH as (p0 & p1 & ->). eexists _, _. reflexivity.
Qed.

(** What [check_existing_query] answers on a candidate. *)
Lemma check_existing_query_candidate q a d md module :
  exists found,
    check_existing_query (QueryReturned (candidate q a d md)) module
    = if PrimFloat.ltb d 0.25%float then
        if Py.truthy module
           && (Py.truthy (md !! "module")
               && negb (bool_decide (md !! "module" = module)))
        then None else Some found
      else None.
Proof.
  destruct (split_lf1_stored_document q a) as (p0 & p1 & Hsplit).
  exists (mkExistingQuery p1 p0).
  unfold check_existing_query, check_existing_query_try, candidate; simpl.
  destruct (PrimFloat.ltb d 0.25%float); [|reflexivity].
  rewrite Hsplit.
  destruct (Py.truthy module); simpl; [|reflexivity].
  destruct (Py.truthy (md !! "module") && _); reflexivity.
Qed.

Lemma module_compatible_spec module stored :
  module_compatible module stored <->
  Py.truthy module && (Py.truthy stored && negb (bool_decide (stored = module)))
    = false.
Proof.
  unfold module_compatible.
  destruct (Py.truthy module), (Py.truthy stored); simpl;
    try (split; [reflexivity|auto]).
  case_bool_decide; simpl; split; auto; intros [H'|[H'|H']];
    congruence.
Qed.

Section CacheFacts.

Variable md5_hexdigest : string -> string.
Variable py_hash : string -> Z.

(** The background branch never answers with [source = "database"], and it
    schedules a task whenever it answers at all. *)
Lemma start_background_reply env query_request current_user request_hash :
  let '(r, evs) :=
    start_background py_hash env query_request current_user request_hash in
  match r with
  | Ok resp =>
      source resp = "processing" /\
      task_id resp = Some (make_task_id py_hash (time_ms env) request_hash) /\
      exists context,
        scheduled evs =
          [mkWorkerArgs (make_task_id py_hash (time_ms env) request_hash)
             (query query_request) context (module query_request)
             (username current_user)]
  | HTTPException code _ => code = 500 /\ scheduled evs = []
  end.
Proof.
  unfold start_background.
  destruct (module query_request) as [m|]; [|simpl; eauto].
  destruct (Py.truthy (Some m)); [|simpl; eauto].
  destruct (query_collection env _ _ _); simpl; eauto.
Qed.

(** The two ways out of [chat_with_bot] once the cache check found nothing
    to return. *)
Lemma chat_with_bot_after_cache_miss env query_request current_user st ar :
  cache_check (now_at_cache_check env)
    (_generate_request_hash md5_hexdigest (username current_user)
       (query query_request) (module query_request))
    (active_requests st) = (None, ar) ->
  let request_hash :=
    _generate_request_hash md5_hexdigest (username current_user)
      (query query_request) (module query_request) in
  let handled :=
    chat_with_bot md5_hexdigest py_hash env query_request current_user st in
  match check_existing_query
          (query_collection env "user_queries" (query query_request) 1)
          (module query_request) with
  | Some found =>
      let response_data :=
        mkQueryResponse (eq_response found) (module query_request)
          "database" None in
      reply handled = Ok response_data /\
      scheduled (trace handled) = [] /\
      active_requests (store_after handled)
        = <[request_hash :=
              mkCacheEntry response_data true (now_at_cache_store env)]> ar
  | None =>
      active_requests (store_after handled) = ar /\
      match reply handled with
      | Ok resp =>
          source resp = "processing" /\
          task_id resp
            = Some (make_task_id py_hash (time_ms env) request_hash) /\
          exists context,
            scheduled (trace handled) =
              [mkWorkerArgs (make_task_id py_hash (time_ms env) request_hash)
                 (query query_request) context (module query_request)
                 (username current_user)]
      | HTTPException code _ => code = 500 /\ scheduled (trace handled) = []
      end
  end.
Proof.
  intros Hmiss request_hash handled. subst handled.
  unfold chat_with_bot. fold request_hash. fold request_hash in Hmiss.
  rewrite Hmiss.
  destruct (check_existing_query _ _) as [found|]; [simpl; auto|].
  pose proof (start_background_reply env query_request current_user
                request_hash) as Hbg.
  destruct (start_background _ _ _ _ _) as [r evs]. simpl.
  split; [reflexivity|exact Hbg].
Qed.

End CacheFacts.

(** C3. For every submission that reaches the look-up in the stored answers,
    the candidate returned by the vector store is accepted (the request is
    answered at once with [source = "database"]) if and only if its distance
    is strictly below 0.25 and the request's module is unset, or the
    candidate's stored module is unset, or the two are equal; in particular
    a candidate at distance 0.5 is never accepted. *)
Theorem candidate_accepted_iff
    (md5_hexdigest : string -> string) (py_hash : string -> Z)
    (env : Env) (query_request : QueryRequest) (current_user : User)
    (st : Store) (original_query answer : string) (distance : float)
    (metadata : Metadata) :
  let handled :=
    chat_with_bot md5_hexdigest py_hash env query_request current_user st in
  fst (cache_check (now_at_cache_check env)
         (_generate_request_hash md5_hexdigest (username current_user)
            (query query_request) (module query_request))
         (active_requests st)) = None ->
  query_collection env "user_queries" (query query_request) 1
    = QueryReturned (candidate original_query answer distance metadata) ->
  (answered_from_database handled <->
     PrimFloat.ltb distance 0.25%float = true /\
     module_compatible (module query_request) (metadata !! "module")) /\
  (distance = 0.5%float -> ~ answered_from_database handled).
Proof.
  intros handled Hmiss Hquery.
  destruct (cache_check _ _ _) as [cached ar] eqn:Hcache.
  simpl in Hmiss. subst cached.
  pose proof (chat_with_bot_after_cache_miss md5_hexdigest py_hash env
                query_request current_user st ar Hcache) as Hpaths.
  simpl in Hpaths. fold handled in Hpaths. rewrite Hquery in Hpaths.
  destruct (check_existing_query_candidate original_query answer distance
              metadata (module query_request)) as [found Hcheck].
  rewrite Hcheck in Hpaths.
  assert (Hiff : answered_from_database handled <->
     PrimFloat.ltb distance 0.25%float = true /\
     module_compatible (module query_request) (metadata !! "module")).
  { rewrite module_compatible_spec.
    destruct (PrimFloat.ltb distance 0.25%float).
    - destruct (Py.truthy (module query_request) && _).
      + split; [|intros [_ ?]; discriminate].
        intros (r & Hr & Hsrc & _). destruct Hpaths as [_ Hreply].
        rewrite Hr in Hreply. destruct Hreply as (Hproc & _).
        rewrite Hproc in Hsrc. discriminate.
      + split; [auto|]. intros _. destruct Hpaths as (Hr & Hsched & _).
        eexists. split; [exact Hr|]. split; [reflexivity|exact Hsched].
    - split; [|intros [? _]; discriminate].
      intros (r & Hr & Hsrc & _). destruct Hpaths as [_ Hreply].
      rewrite Hr in Hreply. destruct Hreply as (Hproc & _).
      rewrite Hproc in Hsrc. discriminate. }
  split; [exact Hiff|].
  intros -> Hans. apply Hiff in Hans. destruct Hans as [Hlt _].
  vm_compute in Hlt. discriminate.
Qed.

Lemma candidate_accepted_iff_witness :
  answered_from_database
    (chat_with_bot Sample.md5 Sample.hash Sample.env_near Sample.ask_module_1
       Sample.alice empty_store) /\
  ~ answered_from_database
      (chat_with_bot Sample.md5 Sample.hash Sample.env_far Sample.ask_module_1
         Sample.alice empty_store).
Proof.
  split.
  - apply (candidate_accepted_iff Sample.md5 Sample.hash Sample.env_near
             Sample.ask_module_1 Sample.alice empty_store
             "What is ISO 27001?" "A standard." 0.125%float
             (stored_metadata (Some "1")) eq_refl eq_refl).
    split; [reflexivity|]. right; right. reflexivity.
  - apply (candidate_accepted_iff Sample.md5 Sample.hash Sample.env_far
             Sample.ask_module_1 Sample.alice empty_store
             "What is ISO 27001?" "A standard." 0.5%float
             (stored_metadata (Some "1")) eq_refl eq_refl).
    reflexivity.
Defined.

(** ** The request fingerprint *)

Lemma string_app_nil_l s : "" +:+ s = s.
Proof. reflexivity. Qed.

Lemma string_app_cons c s t : String c s +:+ t = String c (s +:+ t).
Proof. reflexivity. Qed.

Ltac norm_app H :=
  repeat (rewrite string_app_nil_l in H || rewrite string_app_cons in H).

Lemma contains_char_app c x y :
  Py.contains_char c (x +:+ y)
  = Py.contains_char c x || Py.contains_char c y.
Proof.
  induction x as [|d x IH]; simpl; [reflexivity|].
  rewrite IH. apply orb_assoc.
Qed.

(** The text before the first colon is determined when neither candidate
    contains one. *)
Lemma split_at_first_colon u1 u2 r1 r2 :
  Py.contains_char ":" u1 = false ->
  Py.contains_char ":" u2 = false ->
  u1 +:+ ":" +:+ r1 = u2 +:+ ":" +:+ r2 ->
  u1 = u2 /\ r1 = r2.
Proof.
  revert u2. induction u1 as [|c u1 IH]; intros [|d u2]; simpl;
    intros H1 H2 Heq; norm_app Heq.
  - injection Heq as ->. auto.
  - injection Heq as <- _. discriminate H2.
  - injection Heq as -> _. discriminate H1.
  - injection Heq as -> Heq.
    apply orb_false_elim in H1 as [_ H1]. apply orb_false_elim in H2 as [_ H2].
    destruct (IH u2 H1 H2 Heq) as [-> ->]. auto.
Qed.

(** The text after the last colon is determined when neither candidate
    contains one. *)
Lemma split_at_last_colon q1 q2 m1 m2 :
  Py.contains_char ":" m1 = false ->
  Py.contains_char ":" m2 = false ->
  q1 +:+ ":" +:+ m1 = q2 +:+ ":" +:+ m2 ->
  q1 = q2 /\ m1 = m2.
Proof.
  intros H1 H2. revert q2. induction q1 as [|c q1 IH]; intros [|d q2];
    intros Heq; norm_app Heq.
  - injection Heq as ->. auto.
  - injection Heq as _ Heq. rewrite Heq, contains_char_app in H1. simpl in H1.
    rewrite orb_true_r in H1. discriminate.
  - injection Heq as _ Heq. rewrite <- Heq, contains_char_app in H2.
    simpl in H2. rewrite orb_true_r in H2. discriminate.
  - injection Heq as -> Heq. destruct (IH q2 Heq) as [-> ->]. auto.
Qed.

(** Where the encoding is unambiguous: with no colon in the user names nor
    in the modules, equal request strings come from equal users, equal
    queries and modules that normalise to the same token. *)
Lemma request_string_injective_without_colons u1 q1 m1 u2 q2 m2 :
  Py.contains_char ":" u1 = false ->
  Py.contains_char ":" u2 = false ->
  Py.contains_char ":" (Py.or_str m1 "none") = false ->
  Py.contains_char ":" (Py.or_str m2 "none") = false ->
  request_string u1 q1 m1 = request_string u2 q2 m2 ->
  u1 = u2 /\ q1 = q2 /\ Py.or_str m1 "none" = Py.or_str m2 "none".
Proof.
  unfold request_string. intros Hu1 Hu2 Hm1 Hm2 Heq.
  destruct (split_at_first_colon _ _ _ _ Hu1 Hu2 Heq) as [-> Hrest].
  destruct (split_at_last_colon _ _ _ _ Hm1 Hm2 Hrest) as [-> ->]. auto.
Qed.

(** C4, as the code behaves. The fingerprint is a function of its inputs,
    but distinct triples are mapped to one request string and so to one
    fingerprint whatever the hash: an absent module and the module ["none"]
    collide, and so do triples that differ in where a colon falls between
    the user name and the query. *)
Theorem fingerprint_collides_without_hash_collision
    (md5_hexdigest : string -> string) :
  _generate_request_hash md5_hexdigest "alice" "What is ISO 27001?" None
  = _generate_request_hash md5_hexdigest "alice" "What is ISO 27001?"
      (Some "none") /\
  request_string "alice" "What is ISO 27001?" None
  = request_string "alice" "What is ISO 27001?" (Some "none") /\
  _generate_request_hash md5_hexdigest "a:b" "c" (Some "1")
  = _generate_request_hash md5_hexdigest "a" "b:c" (Some "1").
Proof. repeat split. Qed.

(** ** The background worker *)

(** C5, as stated, fails: when the generator has answered, the worker is
    suspended in the call of [store_chat_history] with the registry still
    empty, so a poll made during that call is answered 404: completion is
    not observable at the time of the persistence call. *)
Lemma persistence_call_precedes_completion :
  resume_after_generator Sample.args Sample.answered 0 empty_store
    = (AwaitingPersist Sample.persist_call, empty_store) /\
  background_task_results empty_store !! wa_task_id Sample.args = None /\
  fst (get_task_status 1 (wa_task_id Sample.args) empty_store)
    = HTTPException 404 "Task not found".
Proof. repeat split. Qed.

(** C5, amended. The worker calls [store_chat_history] and waits for it
    before it writes the task record: it reaches that call only once the
    generator has answered with success or has timed out, the registry is
    then exactly as it was before, and the completed record is written when
    the call has returned or raised, carrying the generated answer in the
    first case. *)
Theorem completion_follows_persistence
    (args : WorkerArgs) (gen : GenOutcome) (now : Z) (st st' : Store)
    (call : PersistCall) :
  resume_after_generator args gen now st = (AwaitingPersist call, st') ->
  st' = st /\
  (gen = GenTimeout /\ pc_response call = timeout_text (wa_query args) \/
   exists r, gen = GenReturned r /\ success r = true /\
             pc_response call = gen_response r) /\
  forall persisted later, exists record,
    background_task_results
      (resume_after_persist args call persisted later st')
      !! wa_task_id args = Some record /\
    tr_completed record = true /\
    (persisted = PersistOk -> tr_response record = pc_response call).
Proof.
  unfold resume_after_generator. intros Hresume.
  assert (Hwritten : forall persisted later, exists record,
    background_task_results
      (resume_after_persist args call persisted later st')
      !! wa_task_id args = Some record /\
    tr_completed record = true /\
    (persisted = PersistOk -> tr_response record = pc_response call)).
  { intros [|msg] later; simpl; eexists;
      (split; [apply lookup_insert_eq|split; [reflexivity|]]).
    - reflexivity.
    - discriminate. }
  destruct gen as [r| |msg].
  - destruct (success r) eqn:Hs; [|discriminate].
    injection Hresume as <- <-. split; [reflexivity|]. split; [|exact Hwritten].
    right. exists r. auto.
  - simpl in Hresume. injection Hresume as <- <-.
    split; [reflexivity|]. split; [|exact Hwritten]. left. auto.
  - discriminate.
Qed.

Lemma completion_follows_persistence_witness :
  resume_after_generator Sample.args Sample.answered 0 empty_store
    = (AwaitingPersist Sample.persist_call, empty_store) /\
  exists record,
    background_task_results
      (resume_after_persist Sample.args Sample.persist_call PersistOk 5
         empty_store)
      !! wa_task_id Sample.args = Some record /\
    tr_completed record = true /\
    (PersistOk = PersistOk -> tr_response record = "It is a standard.").
Proof.
  split; [reflexivity|].
  exact (proj2 (proj2 (completion_follows_persistence Sample.args
                         Sample.answered 0 empty_store empty_store
                         Sample.persist_call eq_refl)) PersistOk 5).
Defined.

(** C6, as stated, fails: when the generator times out and the call of
    [store_chat_history] raises, the record written is an error record that
    carries the message of that exception, not the fallback text. *)
Lemma timeout_then_persist_failure_is_error :
  background_task_results
    (generate_ai_response_task Sample.args GenTimeout
       (PersistRaised "database is locked") 0 empty_store)
    !! wa_task_id Sample.args
  = Some (mkTaskRecord "Error processing request: database is locked" None
            "error" true 0) /\
  "Error processing request: database is locked"
    <> timeout_text (wa_query Sample.args).
Proof. split; [reflexivity|discriminate]. Qed.

(** C6, amended. For every background generation whose generator call
    exceeds the 60-second timeout, the worker writes a completed record and
    no timeout error reaches the poller: when the fallback answer is
    persisted, the record carries the fallback text with source
    ["deepseek"]; when persisting raises, the record is an error record
    carrying the message of that exception. *)
Theorem timeout_yields_completed_record
    (args : WorkerArgs) (persisted : PersistOutcome) (now : Z) (st : Store) :
  exists record,
    background_task_results
      (generate_ai_response_task args GenTimeout persisted now st)
      !! wa_task_id args = Some record /\
    tr_completed record = true /\
    tr_module record = wa_module args /\
    tr_timestamp record = now /\
    match persisted with
    | PersistOk =>
        tr_response record = timeout_text (wa_query args) /\
        tr_source record = "deepseek"
    | PersistRaised msg =>
        tr_response record = "Error processing request: " +:+ msg /\
        tr_source record = "error"
    end.
Proof.
  destruct persisted as [|msg]; eexists;
    (split; [apply lookup_insert_eq|]); simpl; auto.
Qed.

(** ** The route [/chat] *)

(** C7, as stated, fails: a request whose query is present and empty passes
    validation; the handler computes its fingerprint, queries the stored
    answers and schedules a background task. *)
Lemma empty_query_is_processed :
  parse_QueryRequest Sample.empty_query_body = Some (mkQueryRequest "" None) /\
  trace (post_chat Sample.md5 Sample.hash Sample.env_empty
           (CurrentUser Sample.alice) Sample.empty_query_body empty_store)
  = [EvFingerprint "alice::none";
     EvQuery "user_queries" "" 1;
     EvAddTask (mkWorkerArgs "task_1700000000000_11" "" [] None "alice")].
Proof. split; reflexivity. Qed.

(** C7, amended. A submission whose subject is missing (the authentication
    dependency raised) or whose query is missing from the body is rejected
    before the handler runs: nothing is fingerprinted, looked up, scheduled
    or stored. A query that is present, the empty string included, is handed
    to the handler, which starts by computing its fingerprint. *)
Theorem missing_subject_or_query_rejected
    (md5_hexdigest : string -> string) (py_hash : string -> Z)
    (env : Env) (auth : DependencyOutcome) (body : RawBody) (st : Store) :
  let handled := post_chat md5_hexdigest py_hash env auth body st in
  ((exists code detail, auth = DependencyRaised code detail) \/
     body_query body = None ->
   trace handled = [] /\ store_after handled = st /\
   exists code detail, reply handled = HTTPException code detail) /\
  (forall user q,
     auth = CurrentUser user -> body_query body = Some q ->
     exists rest,
       trace handled
       = EvFingerprint
           (_generate_request_hash md5_hexdigest (username user) q
              (body_module body)) :: rest).
Proof.
  intros handled. subst handled. split.
  - intros [(code & detail & ->)|Hq]; simpl; [eauto|].
    unfold post_chat, parse_QueryRequest. rewrite Hq.
    destruct auth; simpl; eauto.
  - intros user q -> Hq. unfold post_chat, parse_QueryRequest. rewrite Hq.
    unfold chat_with_bot. simpl.
    destruct (cache_check _ _ _) as [[r|] ar]; [simpl; eauto|].
    destruct (check_existing_query _ _); [simpl; eauto|].
    destruct (start_background _ _ _ _ _) as [r evs]. simpl. eauto.
Qed.

Lemma missing_subject_or_query_rejected_witness :
  body_query Sample.no_query_body = None /\
  trace (post_chat Sample.md5 Sample.hash Sample.env_empty
           (CurrentUser Sample.alice) Sample.no_query_body empty_store) = [] /\
  store_after (post_chat Sample.md5 Sample.hash Sample.env_empty
                 (CurrentUser Sample.alice) Sample.no_query_body empty_store)
    = empty_store.
Proof.
  split; [reflexivity|].
  destruct (proj1 (missing_subject_or_query_rejected Sample.md5 Sample.hash
                     Sample.env_empty (CurrentUser Sample.alice)
                     Sample.no_query_body empty_store)
              (or_intror eq_refl)) as (Htrace & Hstore & _).
  split; assumption.
Defined.

(** ** Task identifiers *)

(** What a submission schedules: nothing, or one task whose id is made of
    the millisecond clock and the hash of the fingerprint. *)
Lemma chat_with_bot_scheduled
    (md5_hexdigest : string -> string) (py_hash : string -> Z)
    (env : Env) (query_request : QueryRequest) (current_user : User)
    (st : Store) :
  let handled :=
    chat_with_bot md5_hexdigest py_hash env query_request current_user st in
  scheduled (trace handled) = [] \/
  exists context,
    scheduled (trace handled)
    = [mkWorkerArgs
         (make_task_id py_hash (time_ms env)
            (_generate_request_hash md5_hexdigest (username current_user)
               (query query_request) (module query_request)))
         (query query_request) context (module query_request)
         (username current_user)].
Proof.
  intros handled.
  destruct (cache_check (now_at_cache_check env)
              (_generate_request_hash md5_hexdigest (username current_user)
                 (query query_request) (module query_request))
              (active_requests st)) as [[r|] ar] eqn:Hcache.
  - left. subst handled. unfold chat_with_bot. rewrite Hcache. reflexivity.
  - pose proof (chat_with_bot_after_cache_miss md5_hexdigest py_hash env
                  query_request current_user st ar Hcache) as Hpaths.
    simpl in Hpaths. fold handled in Hpaths.
    destruct (check_existing_query _ _).
    + left. tauto.
    + destruct Hpaths as [_ Hreply]. destruct (reply handled).
      * right. tauto.
      * left. tauto.
Qed.

(** C8, as the code behaves. The task id is a function of the millisecond
    clock and of the fingerprint alone: two submissions of the same request
    by the same user that both schedule a task within one millisecond are
    given the same task id. *)
Theorem same_millisecond_same_task_id
    (md5_hexdigest : string -> string) (py_hash : string -> Z)
    (env1 env2 : Env) (query_request : QueryRequest) (current_user : User)
    (st1 st2 : Store) (task1 task2 : WorkerArgs) :
  time_ms env1 = time_ms env2 ->
  scheduled
    (trace (chat_with_bot md5_hexdigest py_hash env1 query_request
              current_user st1)) = [task1] ->
  scheduled
    (trace (chat_with_bot md5_hexdigest py_hash env2 query_request
              current_user st2)) = [task2] ->
  wa_task_id task1 = wa_task_id task2.
Proof.
  intros Htime H1 H2.
  destruct (chat_with_bot_scheduled md5_hexdigest py_hash env1 query_request
              current_user st1) as [Hnone|[c1 Hone]];
    [rewrite Hnone in H1; discriminate|].
  destruct (chat_with_bot_scheduled md5_hexdigest py_hash env2 query_request
              current_user st2) as [Hnone|[c2 Htwo]];
    [rewrite Hnone in H2; discriminate|].
  rewrite Hone in H1. rewrite Htwo in H2.
  injection H1 as <-. injection H2 as <-. simpl. rewrite Htime. reflexivity.
Qed.

Lemma same_millisecond_same_task_id_witness :
  let first :=
    chat_with_bot Sample.md5 Sample.hash Sample.env_empty Sample.ask
      Sample.alice empty_store in
  let second :=
    chat_with_bot Sample.md5 Sample.hash Sample.env_empty_again Sample.ask
      Sample.alice (store_after first) in
  time_ms Sample.env_empty = time_ms Sample.env_empty_again /\
  scheduled (trace first) = [Sample.args] /\
  scheduled (trace second) = [Sample.args] /\
  reply first = reply second /\
  wa_task_id Sample.args = wa_task_id Sample.args.
Proof.
  split; [reflexivity|]. split; [reflexivity|]. split; [reflexivity|].
  split; [reflexivity|].
  exact (same_millisecond_same_task_id Sample.md5 Sample.hash Sample.env_empty
           Sample.env_empty_again Sample.ask Sample.alice empty_store
           empty_store Sample.args Sample.args eq_refl eq_refl eq_refl).
Defined.

(** ** The in-flight cache *)

Lemma worker_active_requests args gen persisted now st :
  active_requests (generate_ai_response_task args gen persisted now st)
  = active_requests st.
Proof.
  unfold generate_ai_response_task, resume_after_generator.
  destruct gen as [r| |msg]; simpl.
  - destruct (success r); simpl; [destruct persisted|]; reflexivity.
  - destruct persisted; reflexivity.
  - reflexivity.
Qed.

(** C10. [chat_with_bot] writes an entry of [active_requests] on the
    database-hit path only. When the cache check returns a cached response
    the dictionary is left as it is. Otherwise the check leaves the
    dictionary as it is or without the expired entry of the fingerprint, in
    both cases without a completed entry for the fingerprint; from there the
    database-hit path stores its response under the fingerprint, while the
    background-generation path and, after it, the worker leave the
    dictionary unchanged, so that no completed entry for the fingerprint
    comes out of a generated answer. The worker never changes the
    dictionary, from whatever state it runs. *)
Theorem active_requests_written_on_database_hit_only
    (md5_hexdigest : string -> string) (py_hash : string -> Z)
    (env : Env) (query_request : QueryRequest) (current_user : User)
    (st : Store) :
  let request_hash :=
    _generate_request_hash md5_hexdigest (username current_user)
      (query query_request) (module query_request) in
  let handled :=
    chat_with_bot md5_hexdigest py_hash env query_request current_user st in
  match cache_check (now_at_cache_check env) request_hash
          (active_requests st) with
  | (Some _, _) => active_requests (store_after handled) = active_requests st
  | (None, ar) =>
      (ar = active_requests st \/ ar = delete request_hash (active_requests st))
      /\
      (forall e, ar !! request_hash = Some e -> ce_completed e = false) /\
      match check_existing_query
              (query_collection env "user_queries" (query query_request) 1)
              (module query_request) with
      | Some found =>
          active_requests (store_after handled)
          = <[request_hash :=
                mkCacheEntry
                  (mkQueryResponse (eq_response found) (module query_request)
                     "database" None)
                  true (now_at_cache_store env)]> ar
      | None =>
          active_requests (store_after handled) = ar /\
          forall args gen persisted now,
            let st' :=
              generate_ai_response_task args gen persisted now
                (store_after handled) in
            active_requests st' = ar /\
            forall e,
              active_requests st' !! request_hash = Some e ->
              ce_completed e = false
      end
  end /\
  forall args gen persisted now st0,
    active_requests (generate_ai_response_task args gen persisted now st0)
    = active_requests st0.
Proof.
  intros request_hash handled.
  split; [|intros; apply worker_active_requests].
  destruct (cache_check (now_at_cache_check env) request_hash
              (active_requests st)) as [[r|] ar] eqn:Hcache.
  - subst handled. unfold chat_with_bot. fold request_hash.
    rewrite Hcache. simpl.
    destruct (cache_check_cases (now_at_cache_check env) request_hash
                (active_requests st))
      as [(e & _ & _ & _ & H)|[(e & _ & _ & _ & H)|[_ H]]];
      rewrite H in Hcache; congruence.
  - assert (Har : (ar = active_requests st \/
                   ar = delete request_hash (active_requests st)) /\
                  (forall e, ar !! request_hash = Some e ->
                             ce_completed e = false)).
    { destruct (cache_check_cases (now_at_cache_check env) request_hash
                  (active_requests st))
        as [(e & _ & _ & _ & H)|[(e & _ & _ & _ & H)|[Hnot H]]];
        rewrite H in Hcache; [discriminate| |].
      - injection Hcache as <-. split; [by right|].
        intros e'. rewrite lookup_delete_eq. discriminate.
      - injection Hcache as <-. split; [by left|exact Hnot]. }
    destruct Har as [Hsub Hnone]. split; [exact Hsub|]. split; [exact Hnone|].
    pose proof (chat_with_bot_after_cache_miss md5_hexdigest py_hash env
                  query_request current_user st ar Hcache) as Hpaths.
    simpl in Hpaths. fold handled request_hash in Hpaths.
    destruct (check_existing_query _ _) as [found|].
    + tauto.
    + destruct Hpaths as [Hsame _]. split; [exact Hsame|].
      intros args gen persisted now st'. subst st'.
      rewrite worker_active_requests, Hsame. split; [reflexivity|exact Hnone].
Qed.

Lemma active_requests_written_on_database_hit_only_witness :
  let handled :=
    chat_with_bot Sample.md5 Sample.hash Sample.env_empty_late Sample.ask
      Sample.alice Sample.cached_at_0 in
  scheduled (trace handled)
    = [mkWorkerArgs "task_1700000300000_29" "What is ISO 27001?" [] None
         "alice"] /\
  active_requests (store_after handled) = ∅ /\
  active_requests
    (generate_ai_response_task Sample.args Sample.answered PersistOk
       Sample.late (store_after handled)) = ∅.
Proof.
  split; [reflexivity|].
  pose proof (proj1 (active_requests_written_on_database_hit_only Sample.md5
                       Sample.hash Sample.env_empty_late Sample.ask
                       Sample.alice Sample.cached_at_0)) as H.
  destruct H as (_ & _ & Hsame & Hworker).
  split; [exact Hsame|].
  exact (proj1 (Hworker Sample.args Sample.answered PersistOk Sample.late)).
Defined.

(** * Further properties *)

(** ** Collections *)

Lemma default_collection_after_setup existing name :
  name ∈ default_collections.*1 ->
  name ∈ collections_after_setup existing.
Proof.
  intros Hin. unfold collections_after_setup, _setup_collections.
  apply elem_of_app.
  destruct (decide (name ∈ existing)) as [Hex|Hnew]; [by left|right].
  apply list_elem_of_fmap in Hin as ([n d] & -> & Hin).
  apply list_elem_of_fmap. exists (n, d). split; [reflexivity|].
  apply list_elem_of_filter. split; [exact Hnew|exact Hin].
Qed.

Lemma get_collection_name_for_module_cases m :
  (m = "1" /\ get_collection_name_for_module m = "iso_bot") \/
  (m = "2" /\ get_collection_name_for_module m = "risk_bot") \/
  (m = "3" /\ get_collection_name_for_module m = "compliance_coach") \/
  (m = "4" /\ get_collection_name_for_module m = "audit_buddy") \/
  (m = "5" /\ get_collection_name_for_module m = "policy_navigator") \/
  (m = "6" /\ get_collection_name_for_module m = "security_advisor") \/
  ((m ∉ BOT_MODULES_keys) /\ get_collection_name_for_module m = "qa_pairs").
Proof.
  unfold get_collection_name_for_module.
  destruct (String.eqb m "1") eqn:H1;
    [apply String.eqb_eq in H1; auto|apply String.eqb_neq in H1].
  destruct (String.eqb m "2") eqn:H2;
    [apply String.eqb_eq in H2; auto|apply String.eqb_neq in H2].
  destruct (String.eqb m "3") eqn:H3;
    [apply String.eqb_eq in H3; auto 10|apply String.eqb_neq in H3].
  destruct (String.eqb m "4") eqn:H4;
    [apply String.eqb_eq in H4; auto 10|apply String.eqb_neq in H4].
  destruct (String.eqb m "5") eqn:H5;
    [apply String.eqb_eq in H5; auto 10|apply String.eqb_neq in H5].
  destruct (String.eqb m "6") eqn:H6;
    [apply String.eqb_eq in H6; auto 10|apply String.eqb_neq in H6].
  do 6 right. split; [|reflexivity].
  unfold BOT_MODULES_keys. rewrite !elem_of_cons, elem_of_nil. tauto.
Qed.

Lemma get_collection_name_for_module_default m :
  get_collection_name_for_module m ∈ default_collections.*1 /\
  get_collection_name_for_module m <> "user_queries".
Proof.
  destruct (get_collection_name_for_module_cases m)
    as [[_ ->]|[[_ ->]|[[_ ->]|[[_ ->]|[[_ ->]|[[_ ->]|[_ ->]]]]]]];
    (split; [simpl; set_solver|discriminate]).
Qed.

(** X1. Once [_setup_collections] has run, whatever collections the client
    had before, the two writers find their collection: [add_qa_pair] adds
    to the collection of the pair's module, which is never [user_queries],
    and [store_chat_history] adds to [user_queries]; neither raises for a
    missing collection. *)
Theorem writers_find_their_collection
    (existing : list string) (qa_pair : AdminQAPair) (call : PersistCall)
    (now_iso now_stamp : string) :
  (exists added,
      add_qa_pair (collections_after_setup existing) qa_pair now_stamp
        = Return added /\
      ca_collection added = get_collection_name_for_module (qa_module qa_pair)
      /\ ca_collection added <> "user_queries" /\
      ca_documents added
        = [qa_question qa_pair +:+ String Py.LF (qa_answer qa_pair)]) /\
  (exists added,
      store_chat_history (collections_after_setup existing) call now_iso
        now_stamp = Return added /\
      ca_collection added = "user_queries" /\
      ca_documents added
        = [stored_document (pc_query call) (pc_response call)]).
Proof.
  split.
  - destruct (get_collection_name_for_module_default (qa_module qa_pair))
      as [Hin Hne].
    apply (default_collection_after_setup existing) in Hin.
    unfold add_qa_pair, add_documents, get_collection.
    rewrite bool_decide_eq_true_2 by exact Hin. simpl.
    eexists. split; [reflexivity|]. simpl. auto.
  - assert (Hin : "user_queries" ∈ collections_after_setup existing).
    { apply default_collection_after_setup. simpl. set_solver. }
    unfold store_chat_history, add_documents, get_collection.
    rewrite bool_decide_eq_true_2 by exact Hin. simpl.
    eexists. split; [reflexivity|]. simpl. auto.
Qed.






(** ** Stored answers: writing and reading back *)

Lemma contains_char_cons c d s :
  Py.contains_char c (String d s) = Ascii.eqb c d || Py.contains_char c s.
Proof. reflexivity. Qed.

Lemma split_lf1_cons c s :
  Py.split_lf1 (String c s)
  = if Ascii.eqb c Py.LF then [EmptyString; s]
    else match Py.split_lf1 s with
         | hd :: tl => String c hd :: tl
         | [] => [String c EmptyString]
         end.
Proof. reflexivity. Qed.

(** A text without line feed, followed by a line feed and a rest, splits
    into exactly that text and that rest. *)
Lemma split_lf1_app q a :
  Py.contains_char Py.LF q = false ->
  Py.split_lf1 (q +:+ String Py.LF a) = [q; a].
Proof.
  induction q as [|c q IH]; intros Hq.
  - reflexivity.
  - rewrite contains_char_cons in Hq. apply orb_false_elim in Hq as [Hc Hq].
    rewrite string_app_cons, split_lf1_cons.
    rewrite Ascii.eqb_sym, Hc. rewrite (IH Hq). reflexivity.
Qed.

(** What [split('\n', 1)] returns: the text itself when it has no line
    feed, otherwise the two parts around its first line feed. *)
Lemma split_lf1_spec s :
  (Py.contains_char Py.LF s = false /\ Py.split_lf1 s = [s]) \/
  (exists part0 part1,
      Py.split_lf1 s = [part0; part1] /\
      s = part0 +:+ String Py.LF part1 /\
      Py.contains_char Py.LF part0 = false).
Proof.
  induction s as [|c s IH]; [by left|].
  rewrite split_lf1_cons, contains_char_cons, (Ascii.eqb_sym Py.LF c).
  destruct (Ascii.eqb c Py.LF) eqn:Hc.
  - right. apply Ascii.eqb_eq in Hc. subst c.
    exists EmptyString, s. auto.
  - destruct IH as [[Hno ->]|(p0 & p1 & -> & -> & Hno)].
    + left. auto.
    + right. exists (String c p0), p1. rewrite string_app_cons.
      rewrite contains_char_cons, (Ascii.eqb_sym Py.LF c), Hc. auto.
Qed.

(** X4. Whatever [check_existing_query] returns was read off the nearest
    document of a result that has one, at a distance strictly below 0.25:
    the stored text is the returned query, a line feed and the returned
    response, and the returned query contains no line feed. Nothing is
    returned when the query of the store raised, when the result has no
    document, or when it comes without its distances. *)
Theorem check_existing_query_sound
    (outcome : QueryOutcome) (module : option string) (found : ExistingQuery) :
  check_existing_query outcome module = Some found ->
  exists results document others rest score,
    outcome = QueryReturned results /\
    documents results = Val ((document :: others) :: rest) /\
    document = eq_query found +:+ String Py.LF (eq_response found) /\
    Py.contains_char Py.LF (eq_query found) = false /\
    similarity_score results = Return score /\
    PrimFloat.ltb score 0.25%float = true /\
    distances results <> Absent.
Proof.
  unfold check_existing_query, check_existing_query_try.
  destruct outcome as [msg|results]; [discriminate|].
  destruct (documents results) as [| |docs] eqn:Hdocs.
  - destruct (distances results), (metadatas results); discriminate.
  - discriminate.
  - destruct docs as [|[|document others] rest]; try discriminate.
    destruct (similarity_score results) as [score|] eqn:Hscore;
      [|discriminate].
    simpl. destruct (PrimFloat.ltb score 0.25%float) eqn:Hlt; [|discriminate].
    destruct (split_lf1_spec document)
      as [[_ ->]|(p0 & p1 & -> & Hdoc & Hno)]; [discriminate|].
    intros Hfound.
    assert (Heq : found = mkExistingQuery p1 p0).
    { destruct (Py.truthy module); [|congruence].
      destruct (stored_module results) as [stored|]; [|discriminate].
      simpl in Hfound. destruct (Py.truthy stored && _); congruence. }
    subst found. simpl.
    exists results, document, others, rest, score.
    repeat (split; [try reflexivity; assumption|]).
    intros Habs. unfold similarity_score in Hscore. rewrite Habs in Hscore.
    injection Hscore as <-. vm_compute in Hlt. discriminate.
Qed.

Lemma check_existing_query_sound_witness :
  exists results document others rest score,
    Sample.one_pair_db 0.125%float "user_queries" "What is ISO 27001?" 1%nat
      = QueryReturned results /\
    documents results = Val ((document :: others) :: rest) /\
    document = "What is ISO 27001?" +:+ String Py.LF "A standard." /\
    Py.contains_char Py.LF "What is ISO 27001?" = false /\
    similarity_score results = Return score /\
    PrimFloat.ltb score 0.25%float = true /\
    distances results <> Absent.
Proof.
  exact (check_existing_query_sound
           (Sample.one_pair_db 0.125%float "user_queries"
              "What is ISO 27001?" 1%nat)
           (Some "1") (mkExistingQuery "A standard." "What is ISO 27001?")
           eq_refl).
Defined.

(** [check_existing_query] on a nearest document of the form query, line
    feed, response. *)
Lemma check_existing_query_nearest_pair
    (q a : string) (md : Metadata) (distance : float)
    (module : option string) :
  Py.contains_char Py.LF q = false ->
  PrimFloat.ltb distance 0.25%float = true ->
  module_compatible module (md !! "module") ->
  check_existing_query
    (QueryReturned
       (mkQueryResult (Val [[stored_document q a]]) (Val [[distance]])
          (Val [[Some md]])))
    module
  = Some (mkExistingQuery a q).
Proof.
  intros Hno Hlt Hcompat.
  unfold check_existing_query, check_existing_query_try. simpl.
  rewrite Hlt. unfold stored_document. rewrite (split_lf1_app _ _ Hno).
  destruct (Py.truthy module) eqn:Hm; [|reflexivity]. simpl.
  apply module_compatible_spec in Hcompat. rewrite Hm in Hcompat.
  simpl in Hcompat. rewrite Hcompat. reflexivity.
Qed.

(** What [store_chat_history] adds, and the module read back from it. *)
Lemma store_chat_history_added
    (collections : list string) (call : PersistCall)
    (now_iso now_stamp : string) (added : CollectionAdd) :
  store_chat_history collections call now_iso now_stamp = Return added ->
  exists md,
    added
    = mkCollectionAdd "user_queries"
        [stored_document (pc_query call) (pc_response call)] [md]
        ["chat_" +:+ now_stamp] /\
    md !! "module" = pc_module call /\
    md !! "user_id" = Some (pc_user_id call) /\
    md !! "source" = Some (pc_source call).
Proof.
  unfold store_chat_history, add_documents.
  destruct (get_collection collections "user_queries") as [name|] eqn:Hget;
    [|discriminate].
  unfold get_collection in Hget. case_bool_decide; [|discriminate].
  injection Hget as <-. simpl. intros [= <-].
  eexists. split; [reflexivity|].
  assert (Hstored : stored_metadata (pc_module call) !! "module"
                    = pc_module call).
  { unfold stored_metadata. destruct (pc_module call); [|reflexivity].
    apply lookup_singleton_eq. }
  split; [|split].
  - rewrite !lookup_insert_ne by discriminate. exact Hstored.
  - apply lookup_insert_eq.
  - rewrite !lookup_insert_ne by discriminate. apply lookup_insert_eq.
Qed.

(** X5. Reading back what [store_chat_history] wrote: when the pair it
    stored is the nearest document, at a distance below 0.25 and with a
    compatible module, and the stored query has no line feed,
    [check_existing_query] returns exactly the stored query and the stored
    response. *)
Theorem stored_pair_is_read_back
    (collections : list string) (call : PersistCall)
    (now_iso now_stamp : string) (added : CollectionAdd)
    (distance : float) (module : option string) :
  store_chat_history collections call now_iso now_stamp = Return added ->
  Py.contains_char Py.LF (pc_query call) = false ->
  PrimFloat.ltb distance 0.25%float = true ->
  module_compatible module (pc_module call) ->
  check_existing_query (QueryReturned (nearest_of added distance)) module
  = Some (mkExistingQuery (pc_response call) (pc_query call)).
Proof.
  intros Hstore Hno Hlt Hcompat.
  destruct (store_chat_history_added _ _ _ _ _ Hstore)
    as (md & -> & Hmodule & _).
  unfold nearest_of. simpl.
  apply check_existing_query_nearest_pair; [exact Hno|exact Hlt|].
  rewrite Hmodule. exact Hcompat.
Qed.

Lemma stored_pair_is_read_back_witness :
  exists added,
    store_chat_history ["user_queries"] Sample.persist_call
      "2024-05-01T10:00:00" "1714557600.0" = Return added /\
    check_existing_query (QueryReturned (nearest_of added 0.125%float))
      (Some "1")
    = Some (mkExistingQuery "It is a standard." "What is ISO 27001?").
Proof.
  eexists. split; [reflexivity|].
  apply (stored_pair_is_read_back ["user_queries"] Sample.persist_call
           "2024-05-01T10:00:00" "1714557600.0" _ 0.125%float (Some "1")
           eq_refl eq_refl eq_refl).
  right; left. reflexivity.
Defined.

(** ** The in-flight cache: reuse, expiry and frame *)

Lemma older_than_ttl_false now ts :
  now - ts <= TTL -> older_than_ttl now ts = false.
Proof. intros H. unfold older_than_ttl. apply Z.ltb_ge. exact H. Qed.

Lemma older_than_ttl_true now ts :
  TTL < now - ts -> older_than_ttl now ts = true.
Proof. intros H. unfold older_than_ttl. apply Z.ltb_lt. exact H. Qed.

(** X6. A request answered from the stored answers is answered from
    [active_requests] when it is submitted again no more than 300 seconds
    after the answer was cached: the same reply, the store of answers not
    queried, nothing scheduled and both dictionaries left as they are. *)
Theorem database_answer_is_reused
    (md5_hexdigest : string -> string) (py_hash : string -> Z)
    (env1 env2 : Env) (query_request : QueryRequest) (current_user : User)
    (st : Store) :
  let request_hash :=
    _generate_request_hash md5_hexdigest (username current_user)
      (query query_request) (module query_request) in
  let first :=
    chat_with_bot md5_hexdigest py_hash env1 query_request current_user st in
  fst (cache_check (now_at_cache_check env1) request_hash
         (active_requests st)) = None ->
  check_existing_query
    (query_collection env1 "user_queries" (query query_request) 1)
    (module query_request) <> None ->
  now_at_cache_check env2 - now_at_cache_store env1 <= TTL ->
  chat_with_bot md5_hexdigest py_hash env2 query_request current_user
    (store_after first)
  = mkHandled (reply first) (store_after first) [EvFingerprint request_hash].
Proof.
  intros request_hash first Hmiss Hfound Hfresh.
  destruct (cache_check (now_at_cache_check env1) request_hash
              (active_requests st)) as [cached ar] eqn:Hcache.
  simpl in Hmiss. subst cached.
  pose proof (chat_with_bot_after_cache_miss md5_hexdigest py_hash env1
                query_request current_user st ar Hcache) as Hpaths.
  simpl in Hpaths. fold first request_hash in Hpaths.
  destruct (check_existing_query _ _) as [found|]; [|congruence].
  destruct Hpaths as (Hreply & _ & Hactive).
  assert (Hregistry : background_task_results (store_after first)
                      = background_task_results st)
    by apply chat_with_bot_registry.
  unfold chat_with_bot. fold request_hash.
  unfold cache_check. rewrite Hactive, lookup_insert_eq. simpl.
  rewrite (older_than_ttl_false _ _ Hfresh), Hreply, <- Hactive.
  destruct (store_after first); reflexivity.
Qed.

Lemma database_answer_is_reused_witness :
  let first :=
    chat_with_bot Sample.md5 Sample.hash Sample.env_near Sample.ask_module_1
      Sample.alice empty_store in
  chat_with_bot Sample.md5 Sample.hash Sample.env_empty_again
    Sample.ask_module_1 Sample.alice (store_after first)
  = mkHandled
      (Ok (mkQueryResponse "A standard." (Some "1") "database" None))
      (store_after first) [EvFingerprint "alice:What is ISO 27001?:1"].
Proof.
  apply (database_answer_is_reused Sample.md5 Sample.hash Sample.env_near
           Sample.env_empty_again Sample.ask_module_1 Sample.alice
           empty_store eq_refl).
  - discriminate.
  - vm_compute. discriminate.
Defined.

(** X7. A completed entry of [active_requests] older than 300 seconds is
    never served: the submission is handled exactly as if the entry were
    not there, starting with a query of the stored answers. *)
Theorem expired_cache_entry_is_dropped
    (md5_hexdigest : string -> string) (py_hash : string -> Z)
    (env : Env) (query_request : QueryRequest) (current_user : User)
    (st : Store) (entry : CacheEntry) :
  let request_hash :=
    _generate_request_hash md5_hexdigest (username current_user)
      (query query_request) (module query_request) in
  let handled :=
    chat_with_bot md5_hexdigest py_hash env query_request current_user st in
  active_requests st !! request_hash = Some entry ->
  ce_completed entry = true ->
  TTL < now_at_cache_check env - ce_timestamp entry ->
  handled
  = chat_with_bot md5_hexdigest py_hash env query_request current_user
      (mkStore (delete request_hash (active_requests st))
         (background_task_results st)) /\
  exists rest,
    trace handled
    = EvFingerprint request_hash
        :: EvQuery "user_queries" (query query_request) 1 :: rest.
Proof.
  intros request_hash handled Hentry Hdone Hold. subst handled.
  unfold chat_with_bot. fold request_hash. simpl.
  unfold cache_check at 1 3. rewrite Hentry, Hdone.
  rewrite (older_than_ttl_true _ _ Hold).
  unfold cache_check. rewrite lookup_delete_eq.
  destruct (check_existing_query _ _) as [found|].
  - split; [reflexivity|]. simpl. eauto.
  - destruct (start_background _ _ _ _ _) as [r evs].
    split; [reflexivity|]. simpl. eauto.
Qed.

Lemma expired_cache_entry_is_dropped_witness :
  let handled :=
    chat_with_bot Sample.md5 Sample.hash Sample.env_empty_late Sample.ask
      Sample.alice Sample.cached_at_0 in
  handled
  = chat_with_bot Sample.md5 Sample.hash Sample.env_empty_late Sample.ask
      Sample.alice empty_store /\
  exists rest,
    trace handled
    = EvFingerprint "alice:What is ISO 27001?:none"
        :: EvQuery "user_queries" "What is ISO 27001?" 1 :: rest.
Proof.
  apply (expired_cache_entry_is_dropped Sample.md5 Sample.hash
           Sample.env_empty_late Sample.ask Sample.alice Sample.cached_at_0
           (mkCacheEntry (mkQueryResponse "A standard." None "database" None)
              true 0)
           eq_refl eq_refl).
  reflexivity.
Defined.

(** X8. A submission touches the in-flight cache under its own fingerprint
    only: the entries of all other fingerprints are as they were. *)
Theorem chat_with_bot_touches_own_fingerprint_only
    (md5_hexdigest : string -> string) (py_hash : string -> Z)
    (env : Env) (query_request : QueryRequest) (current_user : User)
    (st : Store) (other : string) :
  other <> _generate_request_hash md5_hexdigest (username current_user)
             (query query_request) (module query_request) ->
  active_requests
    (store_after
       (chat_with_bot md5_hexdigest py_hash env query_request current_user st))
    !! other
  = active_requests st !! other.
Proof.
  intros Hother.
  set (request_hash := _generate_request_hash md5_hexdigest
                         (username current_user) (query query_request)
                         (module query_request)) in *.
  destruct (cache_check (now_at_cache_check env) request_hash
              (active_requests st)) as [cached ar] eqn:Hcache.
  assert (Har : ar !! other = active_requests st !! other).
  { destruct (cache_check_cases (now_at_cache_check env) request_hash
                (active_requests st))
      as [(e & _ & _ & _ & H)|[(e & _ & _ & _ & H)|[_ H]]];
      rewrite H in Hcache; injection Hcache as <- <-; [reflexivity| |reflexivity].
    apply lookup_delete_ne. congruence. }
  destruct cached as [r|].
  - unfold chat_with_bot. fold request_hash. rewrite Hcache. exact Har.
  - pose proof (chat_with_bot_after_cache_miss md5_hexdigest py_hash env
                  query_request current_user st ar Hcache) as Hpaths.
    simpl in Hpaths. fold request_hash in Hpaths.
    destruct (check_existing_query _ _) as [found|].
    + destruct Hpaths as (_ & _ & ->).
      rewrite lookup_insert_ne by congruence. exact Har.
    + destruct Hpaths as [-> _]. exact Har.
Qed.

Lemma chat_with_bot_touches_own_fingerprint_only_witness :
  active_requests
    (store_after
       (chat_with_bot Sample.md5 Sample.hash Sample.env_near
          Sample.ask_module_1 Sample.alice Sample.cached_at_0))
    !! "alice:What is ISO 27001?:none"
  = Some (mkCacheEntry (mkQueryResponse "A standard." None "database" None)
            true 0).
Proof.
  apply (chat_with_bot_touches_own_fingerprint_only Sample.md5 Sample.hash
           Sample.env_near Sample.ask_module_1 Sample.alice Sample.cached_at_0
           "alice:What is ISO 27001?:none").
  discriminate.
Defined.

(** ** The worker and the polling handler together *)

(** X9. What the worker wrote is what a poll returns: the generated text
    with source ["deepseek"] when generation and persistence succeeded,
    ["Failed to generate response"] with source ["error"] when the
    generator reported a failure, the exception's message with source
    ["error"] when the generator raised; always with the module of the
    request. A poll made no more than 300 seconds after the write leaves the
    registry as it is, so the answer can be polled again. *)
Theorem poll_returns_what_the_worker_wrote
    (args : WorkerArgs) (gen : GenOutcome) (persisted : PersistOutcome)
    (now later : Z) (st : Store) :
  later - now <= TTL ->
  let st1 := generate_ai_response_task args gen persisted now st in
  exists text tag,
    get_task_status later (wa_task_id args) st1
    = (Ok (mkQueryResponse text (wa_module args) tag None), st1) /\
    match gen, persisted with
    | GenReturned r, PersistOk =>
        if success r
        then text = gen_response r /\ tag = "deepseek"
        else text = "Failed to generate response" /\ tag = "error"
    | GenReturned r, PersistRaised msg =>
        if success r
        then text = "Error processing request: " +:+ msg /\ tag = "error"
        else text = "Failed to generate response" /\ tag = "error"
    | GenRaised msg, _ =>
        text = "Error processing request: " +:+ msg /\ tag = "error"
    | GenTimeout, PersistOk =>
        text = timeout_text (wa_query args) /\ tag = "deepseek"
    | GenTimeout, PersistRaised msg =>
        text = "Error processing request: " +:+ msg /\ tag = "error"
    end.
Proof.
  intros Hfresh st1. subst st1.
  pose proof (older_than_ttl_false _ _ Hfresh) as Hold.
  unfold generate_ai_response_task, resume_after_generator, get_task_status.
  destruct gen as [r| |msg]; [destruct (success r)| |];
    destruct persisted as [|pmsg]; simpl;
    rewrite lookup_insert_eq; simpl; rewrite Hold;
    eexists _, _; (split; [reflexivity|auto]).
Qed.

Lemma poll_returns_what_the_worker_wrote_witness :
  get_task_status 300000000 "task_1700000000000_29" Sample.finished_at_0
  = (Ok (mkQueryResponse "It is a standard." None "deepseek" None),
     Sample.finished_at_0).
Proof.
  destruct (poll_returns_what_the_worker_wrote Sample.args Sample.answered
              PersistOk 0 300000000 empty_store ltac:(vm_compute; discriminate))
    as (text & tag & Hpoll & -> & ->).
  exact Hpoll.
Defined.

(** X10. Polling changes nothing but the polled record: [active_requests]
    and the records of all other tasks are as they were, and a record is
    only ever removed, never added or altered. *)
Theorem get_task_status_frame (now : Z) (polled : string) (st : Store) :
  let st' := snd (get_task_status now polled st) in
  active_requests st' = active_requests st /\
  (forall other, other <> polled ->
     background_task_results st' !! other
     = background_task_results st !! other) /\
  (background_task_results st' !! polled
     = background_task_results st !! polled \/
   background_task_results st' !! polled = None).
Proof.
  unfold get_task_status.
  destruct (background_task_results st !! polled) as [r|] eqn:Hl;
    [|simpl; auto].
  destruct (tr_completed r); [|simpl; rewrite Hl; auto].
  destruct (older_than_ttl now (tr_timestamp r)); simpl.
  - split; [reflexivity|]. split.
    + intros other Hne. apply lookup_delete_ne. congruence.
    + right. apply lookup_delete_eq.
  - rewrite Hl. auto.
Qed.

Lemma get_task_status_frame_witness :
  background_task_results
    (snd (get_task_status Sample.late "some_other_task" Sample.finished_at_0))
    !! "task_1700000000000_29"
  = Some Sample.finished_record.
Proof.
  apply (proj1 (proj2 (get_task_status_frame Sample.late "some_other_task"
                         Sample.finished_at_0)) "task_1700000000000_29").
  discriminate.
Defined.

(** X11. The worker changes nothing but the record of its own task: the
    records of all other tasks and [active_requests] are as they were,
    whatever the generator and the store of answers did. *)
Theorem worker_frame
    (args : WorkerArgs) (gen : GenOutcome) (persisted : PersistOutcome)
    (now : Z) (st : Store) (other : string) :
  other <> wa_task_id args ->
  let st' := generate_ai_response_task args gen persisted now st in
  background_task_results st' !! other = background_task_results st !! other
  /\ active_requests st' = active_requests st.
Proof.
  intros Hne st'. subst st'. split; [|apply worker_active_requests].
  unfold generate_ai_response_task, resume_after_generator.
  destruct gen as [r| |msg]; [destruct (success r)| |];
    try destruct persisted; simpl; apply lookup_insert_ne; congruence.
Qed.

Lemma worker_frame_witness :
  background_task_results
    (generate_ai_response_task
       (mkWorkerArgs "task_2" "Another question" [] None "bob")
       GenTimeout PersistOk 7 Sample.finished_at_0)
    !! "task_1700000000000_29"
  = Some Sample.finished_record.
Proof.
  apply (worker_frame (mkWorkerArgs "task_2" "Another question" [] None "bob")
           GenTimeout PersistOk 7 Sample.finished_at_0
           "task_1700000000000_29").
  discriminate.
Defined.

(** X12. A generation that failed is not persisted: when the generator
    reports a failure or raises, the worker finishes without calling
    [store_chat_history], so that its result does not depend on what the
    store of answers would do. *)
Theorem failed_generation_is_not_persisted
    (args : WorkerArgs) (gen : GenOutcome) (now : Z) (st : Store) :
  (exists msg, gen = GenRaised msg) \/
  (exists r, gen = GenReturned r /\ success r = false) ->
  fst (resume_after_generator args gen now st) = Finished /\
  forall persisted1 persisted2,
    generate_ai_response_task args gen persisted1 now st
    = generate_ai_response_task args gen persisted2 now st.
Proof.
  unfold generate_ai_response_task, resume_after_generator.
  intros [(msg & ->)|(r & -> & Hfail)]; [|rewrite Hfail]; simpl; auto.
Qed.

Lemma failed_generation_is_not_persisted_witness :
  fst (resume_after_generator Sample.args
         (GenReturned (mkGenResponse false "")) 0 empty_store) = Finished.
Proof.
  apply (failed_generation_is_not_persisted Sample.args
           (GenReturned (mkGenResponse false "")) 0 empty_store).
  right. eexists. split; reflexivity.
Defined.



(** ** Task identifiers across milliseconds *)

Lemma pretty_N_char_not_underscore n : pretty_N_char n <> "_"%char.
Proof. unfold pretty_N_char. repeat case_match; discriminate. Qed.

Lemma pretty_N_go_underscore x s :
  Py.contains_char "_" (pretty_N_go x s) = Py.contains_char "_" s.
Proof.
  revert s. induction (N.lt_wf_0 x) as [x _ IH]; intros s.
  destruct (decide (x = 0%N)) as [->|Hx]; [by rewrite pretty_N_go_0|].
  rewrite pretty_N_go_step by lia.
  rewrite IH by (apply N.div_lt; lia).
  rewrite contains_char_cons.
  destruct (Ascii.eqb "_" (pretty_N_char (x `mod` 10))) eqn:Hc; [|reflexivity].
  apply Ascii.eqb_eq in Hc. symmetry in Hc.
  by apply pretty_N_char_not_underscore in Hc.
Qed.

Lemma str_int_no_underscore n : Py.contains_char "_" (Py.str_int n) = false.
Proof.
  assert (HN : forall x : N, Py.contains_char "_" (pretty x) = false).
  { intros x. unfold pretty, pretty_N. case_decide; [reflexivity|].
    by rewrite pretty_N_go_underscore. }
  unfold Py.str_int, pretty, pretty_Z. destruct n as [|p|p].
  - reflexivity.
  - apply HN.
  - rewrite contains_char_app. unfold pretty, pretty_positive.
    rewrite HN. reflexivity.
Qed.

(** The text before the first occurrence of a character is determined. *)
Lemma split_at_first_char c u1 u2 r1 r2 :
  Py.contains_char c u1 = false ->
  Py.contains_char c u2 = false ->
  u1 +:+ String c r1 = u2 +:+ String c r2 ->
  u1 = u2 /\ r1 = r2.
Proof.
  revert u2. induction u1 as [|a u1 IH]; intros [|b u2] H1 H2 Heq;
    norm_app Heq; rewrite ?contains_char_cons in *.
  - injection Heq as ->. auto.
  - injection Heq as <- _. rewrite Ascii.eqb_refl in H2. discriminate.
  - injection Heq as -> _. rewrite Ascii.eqb_refl in H1. discriminate.
  - injection Heq as -> Heq.
    apply orb_false_elim in H1 as [_ H1]. apply orb_false_elim in H2 as [_ H2].
    destruct (IH u2 H1 H2 Heq) as [-> ->]. auto.
Qed.

(** Two task ids are equal exactly when they were made in the same
    millisecond from fingerprints of equal hash. *)
Lemma make_task_id_eq_iff (py_hash : string -> Z) ms1 ms2 h1 h2 :
  make_task_id py_hash ms1 h1 = make_task_id py_hash ms2 h2
  <-> ms1 = ms2 /\ py_hash h1 = py_hash h2.
Proof.
  split; [|intros [-> Hh]; unfold make_task_id; by rewrite Hh].
  unfold make_task_id. intros Heq. norm_app Heq.
  injection Heq as Heq.
  destruct (split_at_first_char "_" _ _ _ _
              (str_int_no_underscore ms1) (str_int_no_underscore ms2) Heq)
    as [Hms Hh].
  split; by apply (inj pretty).
Qed.

(** X14. Two submissions that schedule a task while the millisecond clock
    reads different values are given different task ids, whoever submits
    and whatever is asked. *)
Theorem different_millisecond_different_task_id
    (md5_hexdigest : string -> string) (py_hash : string -> Z)
    (env1 env2 : Env) (request1 request2 : QueryRequest) (user1 user2 : User)
    (st1 st2 : Store) (task1 task2 : WorkerArgs) :
  time_ms env1 <> time_ms env2 ->
  scheduled
    (trace (chat_with_bot md5_hexdigest py_hash env1 request1 user1 st1))
    = [task1] ->
  scheduled
    (trace (chat_with_bot md5_hexdigest py_hash env2 request2 user2 st2))
    = [task2] ->
  wa_task_id task1 <> wa_task_id task2.
Proof.
  intros Htime H1 H2.
  destruct (chat_with_bot_scheduled md5_hexdigest py_hash env1 request1
              user1 st1) as [Hnone|[c1 Hone]];
    [rewrite Hnone in H1; discriminate|].
  destruct (chat_with_bot_scheduled md5_hexdigest py_hash env2 request2
              user2 st2) as [Hnone|[c2 Htwo]];
    [rewrite Hnone in H2; discriminate|].
  rewrite Hone in H1. rewrite Htwo in H2.
  injection H1 as <-. injection H2 as <-. simpl.
  intros Heq. apply make_task_id_eq_iff in Heq as [Hms _]. contradiction.
Qed.

Lemma different_millisecond_different_task_id_witness :
  scheduled
    (trace (chat_with_bot Sample.md5 Sample.hash Demo.env_empty_next_second
              Sample.ask Sample.alice empty_store))
  = [mkWorkerArgs "task_1700000001000_29" "What is ISO 27001?" [] None
       "alice"] /\
  "task_1700000000000_29" <> "task_1700000001000_29".
Proof.
  split; [reflexivity|].
  apply (different_millisecond_different_task_id Sample.md5 Sample.hash
           Sample.env_empty Demo.env_empty_next_second Sample.ask Sample.ask
           Sample.alice Sample.alice empty_store empty_store Sample.args
           (mkWorkerArgs "task_1700000001000_29" "What is ISO 27001?" [] None
              "alice"));
    [vm_compute; discriminate|reflexivity|reflexivity].
Defined.

(** ** Retrying HTTP calls *)













(** ** The health check of the launcher *)








(** ** The generator *)



(** X21. What is read off the body of a 200 response: the content of the
    message of the first choice when they are there; the empty string,
    still as a success, when the body has no [choices] at all; and the mock
    response when [choices] is an empty list. *)
Theorem reply_of_a_200_body
    (fields : list (string * Json)) (query : string)
    (context : option (list string)) (module : option string) :
  let r :=
    generate_response (PostResponded 200 (Some (JObject fields))) query
      context module in
  (forall choice others message content,
     assoc "choices" fields = Some (JArray (JObject choice :: others)) ->
     assoc "message" choice = Some (JObject message) ->
     assoc "content" message = Some content ->
     mr_success r = true /\ mr_response r = content) /\
  (assoc "choices" fields = None ->
   mr_success r = true /\ mr_response r = JString "") /\
  (assoc "choices" fields = Some (JArray []) ->
   r = _get_fallback_response query context module).
Proof.
  unfold generate_response, reply_of_body, bind. simpl.
  split; [|split].
  - intros choice others message content -> . simpl. intros -> . simpl.
    intros ->. destruct (assoc "usage" fields); simpl; auto.
  - intros ->. simpl. destruct (assoc "usage" fields); simpl; auto.
  - intros ->. reflexivity.
Qed.

Lemma reply_of_a_200_body_witness :
  mr_response
    (generate_response
       (PostResponded 200
          (Some (JObject
                   [("choices",
                     JArray
                       [JObject
                          [("message",
                            JObject [("content", JString "It is a standard.")])]])])))
       "What is ISO 27001?" None None)
  = JString "It is a standard." /\
  mr_response
    (generate_response (PostResponded 200 (Some (JObject [])))
       "What is ISO 27001?" None None)
  = JString "".
Proof.
  split.
  - apply (proj1 (reply_of_a_200_body
                    [("choices",
                      JArray
                        [JObject
                           [("message",
                             JObject
                               [("content", JString "It is a standard.")])]])]
                    "What is ISO 27001?" None None)
             [("message", JObject [("content", JString "It is a standard.")])]
             [] [("content", JString "It is a standard.")]
             (JString "It is a standard.") eq_refl eq_refl eq_refl).
  - apply (proj1 (proj2 (reply_of_a_200_body [] "What is ISO 27001?" None
                           None)) eq_refl).
Defined.



(** ** User creation *)

(** X23. [create_user] never overwrites a user: for a user name already in
    [fake_users_db] it answers 400 and leaves the database as it is;
    otherwise it adds exactly one record under that name, enabled, with the
    hash of the password, and leaves all other users as they are, so that a
    second creation under the same name is refused. *)
Theorem create_user_never_overwrites
    (get_password_hash : string -> string) (user : UserCreate)
    (fake_users_db : gmap string UserRecord) :
  let '(result, db') := create_user get_password_hash user fake_users_db in
  (forall existing,
     fake_users_db !! uc_username user = Some existing ->
     result = CreateRejected 400 "Username already exists" /\
     db' = fake_users_db) /\
  (fake_users_db !! uc_username user = None ->
   result = Created (uc_username user) /\
   db' !! uc_username user
   = Some (mkUserRecord (uc_username user) (uc_email user)
             (uc_full_name user) (get_password_hash (uc_password user))
             false (uc_is_admin user)) /\
   (forall other, other <> uc_username user ->
      db' !! other = fake_users_db !! other) /\
   forall again,
     uc_username again = uc_username user ->
     create_user get_password_hash again db'
     = (CreateRejected 400 "Username already exists", db')).
Proof.
  unfold create_user.
  destruct (fake_users_db !! uc_username user) as [existing|] eqn:Hl.
  - split; [auto|discriminate].
  - split; [discriminate|]. intros _.
    split; [reflexivity|].
    split; [apply lookup_insert_eq|].
    split.
    + intros other Hne. apply lookup_insert_ne. congruence.
    + intros again ->. rewrite lookup_insert_eq. reflexivity.
Qed.

Lemma create_user_never_overwrites_witness :
  let '(result, db') := create_user Sample.md5 Demo.carol ∅ in
  result = Created "carol" /\
  create_user Sample.md5 Demo.carol_again db'
  = (CreateRejected 400 "Username already exists", db').
Proof.
  pose proof (create_user_never_overwrites Sample.md5 Demo.carol ∅) as H.
  destruct (create_user Sample.md5 Demo.carol ∅) as [result db'].
  destruct H as [_ H]. destruct (H eq_refl) as (Hres & _ & _ & Hagain).
  split; [exact Hres|]. apply Hagain. reflexivity.
Defined.

(** ** Failures of the vector store during a submission *)


(** ** What the dictionaries hold *)

Lemma chat_with_bot_store_ok
    (md5_hexdigest : string -> string) (py_hash : string -> Z)
    env query_request current_user st :
  store_ok st ->
  store_ok
    (store_after
       (chat_with_bot md5_hexdigest py_hash env query_request current_user st)).
Proof.
  intros [Hcache Hreg]. split; [|by rewrite chat_with_bot_registry].
  set (request_hash := _generate_request_hash md5_hexdigest
                         (username current_user) (query query_request)
                         (module query_request)).
  destruct (cache_check (now_at_cache_check env) request_hash
              (active_requests st)) as [cached ar] eqn:Hcc.
  assert (Har : map_Forall (fun _ e => cache_entry_ok e) ar).
  { destruct (cache_check_cases (now_at_cache_check env) request_hash
                (active_requests st))
      as [(e & _ & _ & _ & H)|[(e & _ & _ & _ & H)|[_ H]]];
      rewrite H in Hcc; injection Hcc as <- <-;
      [assumption|by apply map_Forall_delete|assumption]. }
  destruct cached as [r|].
  - unfold chat_with_bot. fold request_hash. rewrite Hcc. exact Har.
  - pose proof (chat_with_bot_after_cache_miss md5_hexdigest py_hash env
                  query_request current_user st ar Hcc) as Hpaths.
    simpl in Hpaths. fold request_hash in Hpaths.
    destruct (check_existing_query _ _) as [found|].
    + destruct Hpaths as (_ & _ & ->).
      apply map_Forall_insert_2; [|exact Har]. repeat split.
    + destruct Hpaths as [-> _]. exact Har.
Qed.

Lemma step_store_ok
    (md5_hexdigest : string -> string) (py_hash : string -> Z) st st' :
  step md5_hexdigest py_hash st st' -> store_ok st -> store_ok st'.
Proof.
  intros Hstep Hok.
  destruct Hstep as [env auth body st|now tid st|args gen now st
                    |args call persisted now st].
  - unfold post_chat. destruct auth; [exact Hok|].
    destruct (parse_QueryRequest body); [|exact Hok].
    by apply chat_with_bot_store_ok.
  - destruct Hok as [Hcache Hreg]. unfold get_task_status.
    destruct (background_task_results st !! tid) as [r|]; [|by split].
    destruct (tr_completed r); [|by split].
    destruct (older_than_ttl now (tr_timestamp r)); [|by split].
    split; [exact Hcache|]. by apply map_Forall_delete.
  - destruct Hok as [Hcache Hreg]. unfold resume_after_generator.
    destruct gen as [r| |msg]; [destruct (success r)| |]; simpl;
      try (by split); (split; [exact Hcache|]);
      (apply map_Forall_insert_2; [|exact Hreg]); split; auto.
  - destruct Hok as [Hcache Hreg].
    destruct persisted; simpl; (split; [exact Hcache|]);
      (apply map_Forall_insert_2; [|exact Hreg]); split; auto.
Qed.

(** X25. In every state the process can reach, every entry of
    [active_requests] is a completed answer with [source = "database"] and
    no task id (a "processing" placeholder is never cached), and every
    record of [background_task_results] is completed with source
    ["deepseek"] or ["error"]. *)
Theorem reachable_store_ok
    (md5_hexdigest : string -> string) (py_hash : string -> Z) (st : Store) :
  reachable md5_hexdigest py_hash st ->
  (forall request_hash entry,
     active_requests st !! request_hash = Some entry ->
     ce_completed entry = true /\
     source (ce_response entry) = "database" /\
     task_id (ce_response entry) = None) /\
  (forall task record,
     background_task_results st !! task = Some record ->
     tr_completed record = true /\
     (tr_source record = "deepseek" \/ tr_source record = "error")).
Proof.
  unfold reachable. intros Hreach.
  assert (Hok : store_ok st).
  { assert (Hgen : forall s s', rtc (step md5_hexdigest py_hash) s s' ->
              store_ok s -> store_ok s').
    { clear. intros s s' H. induction H as [|s1 s2 s3 H12 _ IH]; [auto|].
      intros H1. apply IH. by eapply step_store_ok. }
    apply (Hgen _ _ Hreach). split; apply map_Forall_empty. }
  destruct Hok as [Hcache Hreg]. split.
  - intros request_hash entry Hl. exact (Hcache request_hash entry Hl).
  - intros task record Hl. exact (Hreg task record Hl).
Qed.

Lemma reachable_store_ok_witness :
  reachable Sample.md5 Sample.hash Sample.finished_at_0 /\
  tr_completed Sample.finished_record = true /\
  (tr_source Sample.finished_record = "deepseek" \/
   tr_source Sample.finished_record = "error").
Proof.
  split; [exact sample_finished_reachable|].
  exact (proj2 (reachable_store_ok Sample.md5 Sample.hash
                  Sample.finished_at_0 sample_finished_reachable)
           "task_1700000000000_29" Sample.finished_record eq_refl).
Defined.

